(** * jira-issues-to-dust: a shallow embedding of [src/jira/jira-issues-to-dust.ts]

    The script fetches the Jira issues matching a JQL query page by page,
    renders each issue as a text document and upserts it into a Dust
    datasource through a Bottleneck limiter.

    Conventions of the embedding.
    - A JavaScript string is a [string]: a sequence of code units below 256.
    - A JavaScript [number] that the script only prints or compares
      (totals, offsets, estimates, vote counts) is a [Z].
    - [null]/[undefined] is [None].
    - Network peers (Jira, Dust) and the order in which the scheduled
      jobs finish and their promises settle are parameters of the
      definitions: the script is a function of them.
    - What the script does to the outside (requests, sleeps, console
      lines) is recorded in a trace, oldest event first.
    - The fetch loop may run forever, so it takes a number of iterations
      it is allowed ([fuel]) and returns [None] when that is not enough.
    The axios clients and the Bottleneck limiter are libraries: what they
    do is taken from the peers and from that order. *)

From Stdlib Require Import ZArith String Ascii List Bool Lia DecimalString.
From Stdlib Require Import Permutation.
From Stdlib Require DecimalZ.
From Equations Require Import Equations.
Import ListNotations.

Local Open Scope list_scope.
Local Open Scope string_scope.

(* ------------------------------------------------------------------ *)
(** * JavaScript string primitives used by the script *)

Module JS.

(** The line terminator of a template literal. *)
Definition LF : ascii := "010"%char.
Definition nl : string := String LF "".

(** [String(n)] for an integer that JavaScript holds exactly and prints
    in plain decimal digits (magnitude up to 2^53 - 1; larger numbers
    are rounded, and printed in exponent form from 1e21 on). *)
Definition number_to_string (n : Z) : string :=
  NilZero.string_of_int (Z.to_int n).

(** [arr.join(sep)] on an array of strings. *)
Definition join (sep : string) (xs : list string) : string :=
  String.concat sep xs.

(** White space in the sense of [String.prototype.trim], for code units
    below 256: TAB, LF, VT, FF, CR, SP and NBSP. *)
Definition is_space (c : ascii) : bool :=
  let n := nat_of_ascii c in
  (Nat.eqb n 9 || Nat.eqb n 10 || Nat.eqb n 11 || Nat.eqb n 12
   || Nat.eqb n 13 || Nat.eqb n 32 || Nat.eqb n 160)%bool.

Fixpoint trimStart (s : string) : string :=
  match s with
  | EmptyString => EmptyString
  | String c s' => if is_space c then trimStart s' else s
  end.

Fixpoint trimEnd (s : string) : string :=
  match s with
  | EmptyString => EmptyString
  | String c s' =>
      match trimEnd s' with
      | EmptyString => if is_space c then EmptyString else String c EmptyString
      | r => String c r
      end
  end.

Definition trim (s : string) : string := trimEnd (trimStart s).

(** [a || b] where [a : string | null]: the empty string is falsy. *)
Definition or_string (a : option string) (b : string) : string :=
  match a with
  | Some s => if String.eqb s "" then b else s
  | None => b
  end.

(** [`${a || b}`] where [a : number | null]: zero is falsy. *)
Definition or_number (a : option Z) (b : string) : string :=
  match a with
  | Some n => if Z.eqb n 0 then b else number_to_string n
  | None => b
  end.

(** The text split at line terminators, as [s.split("\n")] gives it. *)
Fixpoint lines (s : string) : list string :=
  match s with
  | EmptyString => [EmptyString]
  | String c s' =>
      if Ascii.eqb c LF then EmptyString :: lines s'
      else match lines s' with
           | l :: ls => String c l :: ls
           | [] => [String c EmptyString]
           end
  end.

Fixpoint has_LF (s : string) : bool :=
  match s with
  | EmptyString => false
  | String c s' => (Ascii.eqb c LF || has_LF s')%bool
  end.

End JS.

(* ------------------------------------------------------------------ *)
(** * Data model: [interface JiraIssue] *)

Record Person := { displayName : string; emailAddress : string }.

Record Project := { project_key : string; project_name : string }.

(** [{ key: string; fields: { summary: string } }] *)
Record IssueRef := { ref_key : string; ref_summary : string }.

Record LinkType :=
  { linktype_name : string; inward : string; outward : string }.

Record IssueLink :=
  { link_type : LinkType;
    inwardIssue : option IssueRef;
    outwardIssue : option IssueRef }.

Record Attachment := { filename : string; attachment_content : string }.

(** A rich-text node list [{ content: Array<{ text: string }> }[]];
    each inner list holds the [text] of the leaf runs. *)
Definition Paragraphs := list (list string).

Record Comment :=
  { comment_author : Person;
    comment_created : string;
    comment_body : Paragraphs }.

Record Fields :=
  { summary : string;
    (** [formatDescription] guards both levels with [?.], so both may be
        absent here. *)
    description : option (list (option (list string)));
    issuetype : string;           (* issuetype.name *)
    status : string;              (* status.name *)
    priority : string;            (* priority.name *)
    assignee : option Person;
    reporter : Person;
    project : Project;
    created : string;
    updated : string;
    resolutiondate : option string;
    resolution : option string;   (* resolution.name *)
    labels : list string;
    components : list string;     (* components[i].name *)
    sprint : option string;       (* sprint.name *)
    epic : option string;         (* epic.name *)
    timeoriginalestimate : option Z;
    timeestimate : option Z;
    timespent : option Z;
    votes : Z;                    (* votes.votes *)
    watches : Z;                  (* watches.watchCount *)
    fixVersions : list string;    (* fixVersions[i].name *)
    versions : list string;       (* versions[i].name *)
    subtasks : list IssueRef;
    issuelinks : list IssueLink;
    attachment : list Attachment;
    comment : list Comment }.     (* comment.comments *)

Record JiraIssue :=
  { id : string; key : string; self : string; fields : Fields }.

(* ------------------------------------------------------------------ *)
(** * Document formatter *)

Import JS.

(** [formatDescription] *)
Definition formatDescription
    (d : option (list (option (list string)))) : string :=
  match d with
  | None => ""
  | Some paragraphs =>
      join nl
        (map (fun c => match c with
                       | Some runs => join "" runs
                       | None => ""      (* [undefined] joins as "" *)
                       end) paragraphs)
  end.

(** The template of one comment in [formatComments]. *)
Definition formatComment (c : Comment) : string :=
  join nl
    [ "";
      "[" ++ comment_created c ++ "] Author: "
        ++ displayName (comment_author c)
        ++ " (" ++ emailAddress (comment_author c) ++ ")";
      join nl (map (join "") (comment_body c));
      "" ].

(** [formatComments] *)
Definition formatComments (cs : list Comment) : string :=
  join nl (map formatComment cs).

Definition formatSubtask (st : IssueRef) : string :=
  ref_key st ++ ": " ++ ref_summary st.

Definition formatLink (link : IssueLink) : string :=
  let linkedIssue :=
    match inwardIssue link with
    | Some i => Some i
    | None => outwardIssue link
    end in
  match linkedIssue with
  | Some li =>
      linktype_name (link_type link) ++ " " ++ ref_key li ++ ": "
        ++ ref_summary li
  | None => ""
  end.

(** [.filter(Boolean)] on strings keeps the non-empty ones. *)
Definition filterBoolean (xs : list string) : list string :=
  filter (fun s => negb (String.eqb s "")) xs.

(** [const documentId = `issue-${issue.key}`] *)
Definition documentId (issue : JiraIssue) : string :=
  "issue-" ++ key issue.

(** The lines of the template literal from [Issue Key:] to
    [Attachments:], one entry per line of the literal. *)
Definition template_head (issue : JiraIssue) : list string :=
  let f := fields issue in
  [ "Issue Key: " ++ key issue;
    "ID: " ++ id issue;
    "URL: " ++ self issue;
    "Summary: " ++ summary f;
    "Description:";
    formatDescription (description f);
    "";
    "Issue Type: " ++ issuetype f;
    "Status: " ++ status f;
    "Priority: " ++ priority f;
    "Assignee: " ++
      match assignee f with
      | Some a => displayName a ++ " (" ++ emailAddress a ++ ")"
      | None => "Unassigned"
      end;
    "Reporter: " ++ displayName (reporter f)
      ++ " (" ++ emailAddress (reporter f) ++ ")";
    "Project: " ++ project_name (project f)
      ++ " (" ++ project_key (project f) ++ ")";
    "Created: " ++ created f;
    "Updated: " ++ updated f;
    "Resolution: " ++
      match resolution f with
      | Some r => r
      | None => "Unresolved"
      end;
    "Resolution Date: " ++ or_string (resolutiondate f) "N/A";
    "Labels: " ++ join ", " (labels f);
    "Components: " ++ join ", " (components f);
    "Sprint: " ++ match sprint f with Some s => s | None => "N/A" end;
    "Epic: " ++ match epic f with Some e => e | None => "N/A" end;
    "Time Tracking:";
    "  Original Estimate: " ++ or_number (timeoriginalestimate f) "N/A";
    "  Remaining Estimate: " ++ or_number (timeestimate f) "N/A";
    "  Time Spent: " ++ or_number (timespent f) "N/A";
    "Votes: " ++ number_to_string (votes f);
    "Watches: " ++ number_to_string (watches f);
    "Fix Versions: " ++ join ", " (fixVersions f);
    "Affected Versions: " ++ join ", " (versions f);
    "Subtasks: " ++ join ", " (map formatSubtask (subtasks f));
    "Issue Links: " ++
      join ", " (filterBoolean (map formatLink (issuelinks f)));
    "Attachments: " ++ join ", " (map filename (attachment f));
    "" ].

(** The whole template literal: it opens with a line break, and closes
    with the comment thread, a line break and two blanks. *)
Definition template (issue : JiraIssue) : string :=
  join nl
    ([""] ++ template_head issue
          ++ ["Comments:"; formatComments (comment (fields issue)); "  "])%list.

(** [const content = `...`.trim()] *)
Definition content (issue : JiraIssue) : string := trim (template issue).

(** A line of the rendered document. *)
Definition has_line (l : string) (doc : string) : Prop := In l (lines doc).

(* ------------------------------------------------------------------ *)
(** * The Jira search endpoint, as the script sees it *)

(** [parseInt(s, 10)]: leading white space, an optional sign, then the
    longest run of decimal digits; [None] stands for [NaN]. *)
Module ParseInt.

Definition digit_of (c : ascii) : option Z :=
  let n := nat_of_ascii c in
  if (Nat.leb 48 n && Nat.leb n 57)%bool then Some (Z.of_nat (n - 48))
  else None.

Fixpoint digits (acc : Z) (s : string) : Z :=
  match s with
  | EmptyString => acc
  | String c s' =>
      match digit_of c with
      | Some d => digits (10 * acc + d) s'
      | None => acc
      end
  end.

Definition unsigned (s : string) : option Z :=
  match s with
  | EmptyString => None
  | String c _ =>
      match digit_of c with
      | Some _ => Some (digits 0 s)
      | None => None
      end
  end.

Definition parseInt (s : string) : option Z :=
  match JS.trimStart s with
  | String "-" s' => option_map Z.opp (unsigned s')
  | String "+" s' => unsigned s'
  | s' => unsigned s'
  end.

End ParseInt.

(** [const maxResults = 50] *)
Definition maxResults : Z := 50.

(** The body of one [POST /search]; the query and the field list are the
    same in every request and are left out. *)
Record Request := { req_startAt : Z; req_maxResults : Z }.

(** [interface JiraSearchResponse] ([startAt] and [maxResults] of the
    answer are never read). *)
Record SearchData := { issues : list JiraIssue; total : Z }.

(** What [catch (error)] can receive from [jiraApi.post]. *)
Inductive Error :=
| AxiosResponseError (status : Z) (retry_after : option string)
    (* [isAxiosError(error) && error.response]: status and the
       [retry-after] header *)
| AxiosNoResponse   (* an axios error without a response: network failure *)
| OtherError.       (* not an axios error *)

Inductive Response :=
| Fulfilled (data : SearchData)
| Rejected (error : Error).

(** The answer to the [n]-th request the script sends (counted from 0). *)
Definition Server := nat -> Request -> Response.

(** Console lines, one constructor per [console.log]/[console.error]
    site of the script. *)
Inductive LogLine :=
| RateLimited (retryAfter : option Z)  (* Rate limited. Retrying after .. *)
| Retrieved (n : nat) (tot : Z)        (* Retrieved n of total issues *)
| ErrorFetching (e : Error)            (* the console.error group of the loop *)
| FinalTotal (n : nat)                 (* Final total: n issues retrieved *)
| Found (n : nat)                      (* Found n issues updated in .. *)
| Upserted (k : string)                (* Upserted issue k to Dust datasource *)
| ErrorUpserting (k : string)          (* Error upserting issue k .. *)
| AllProcessed                         (* All issues processed successfully. *)
| AnErrorOccurred.                     (* An error occurred: *)

Inductive Event :=
| Post (req : Request)     (* jiraApi.post("/search", req) *)
| Sleep (ms : option Z)    (* the call setTimeout(resolve, ms): its
                              argument, not the time waited; [None]
                              is NaN *)
| Log (line : LogLine).

(** The outside world threaded through the script: how many requests
    were sent so far, and what happened, oldest first. *)
Record World := { clock : nat; trace : list Event }.

Definition world0 : World := {| clock := 0; trace := [] |}.

Definition emit (e : Event) (w : World) : World :=
  {| clock := clock w; trace := (trace w ++ [e])%list |}.

Definition post (srv : Server) (req : Request) (w : World)
  : Response * World :=
  (srv (clock w) req,
   {| clock := S (clock w); trace := (trace w ++ [Post req])%list |}).

(** The body [makeRequest] posts for the page at offset [s]. *)
Definition page_request (s : Z) : Request :=
  {| req_startAt := s; req_maxResults := maxResults |}.

(** The header to wait on when the error is a 429 with a response. *)
Definition rate_limited (e : Error) : option (option string) :=
  match e with
  | AxiosResponseError st hdr => if Z.eqb st 429 then Some hdr else None
  | _ => None
  end.

(** [makeRequest(retryCount)] at offset [startAt]. *)
Equations makeRequest (srv : Server) (startAt : Z) (retryCount : nat)
    (w : World) : Response * World by wf (3 - retryCount)%nat lt :=
makeRequest srv startAt retryCount w
    with post srv (page_request startAt) w := {
  | (Fulfilled data, w1) => (Fulfilled data, w1)
  | (Rejected error, w1) with rate_limited error, lt_dec retryCount 3 := {
      | Some hdr, left _ =>
          let retryAfter := ParseInt.parseInt (JS.or_string hdr "60") in
          let w2 := emit (Log (RateLimited retryAfter)) w1 in
          let w3 := emit (Sleep (option_map (Z.mul 1000) retryAfter)) w2 in
          makeRequest srv startAt (S retryCount) w3
      | _, _ => (Rejected error, w1) } }.
Next Obligation. destruct retryCount as [|[|[|n]]]; lia. Qed.

(** The variables of [getIssuesUpdatedLast24Hours]. *)
Record FetchState :=
  { allIssues : list JiraIssue; startAt : Z; total_seen : Z }.

Definition fetch_init : FetchState :=
  {| allIssues := []; startAt := 0; total_seen := 0 |}.

(** The three assignments of the [try] block after a page [d] arrived:
    [allIssues = allIssues.concat(d.issues)], [total = d.total],
    [startAt += maxResults]. *)
Definition next_state (st : FetchState) (d : SearchData) : FetchState :=
  {| allIssues := (allIssues st ++ issues d)%list;
     startAt := (startAt st + maxResults)%Z;
     total_seen := total d |}.

(** The [while] test: [allIssues.length < total]. *)
Definition continues (st : FetchState) : bool :=
  (Z.of_nat (List.length (allIssues st)) <? total_seen st)%Z.

(** The [do { try .. catch .. break } while (allIssues.length < total)]
    loop; [None] when [fuel] iterations did not reach the exit. *)
Fixpoint fetch_loop (fuel : nat) (srv : Server) (st : FetchState)
    (w : World) : option (list JiraIssue * World) :=
  match fuel with
  | O => None
  | S fuel' =>
      match makeRequest srv (startAt st) 0 w with
      | (Fulfilled data, w1) =>
          let st' := next_state st data in
          let w2 :=
            emit (Log (Retrieved (List.length (allIssues st'))
                                 (total_seen st'))) w1 in
          if continues st' then fetch_loop fuel' srv st' w2
          else Some (allIssues st', w2)
      | (Rejected error, w1) =>
          (* catch: console.error(..); break *)
          Some (allIssues st, emit (Log (ErrorFetching error)) w1)
      end
  end.

(** [getIssuesUpdatedLast24Hours]: the promise fulfils with the array
    alone. *)
Definition getIssuesUpdatedLast24Hours (fuel : nat) (srv : Server)
    (w : World) : option (list JiraIssue * World) :=
  match fetch_loop fuel srv fetch_init w with
  | Some (all, w') =>
      Some (all, emit (Log (FinalTotal (List.length all))) w')
  | None => None
  end.

(* ------------------------------------------------------------------ *)
(** * Delivery to Dust and [main] *)

(** The three identifiers read from the environment that the upsert
    path is built from. *)
Record Config :=
  { DUST_WORKSPACE_ID : string;
    DUST_VAULT_ID : string;
    DUST_DATASOURCE_ID : string }.

(** [const DUST_RATE_LIMIT = 120] and the options [main] hands to
    [new Bottleneck]. *)
Definition DUST_RATE_LIMIT : Z := 120.

Record LimiterOptions := { maxConcurrent : Z; minTime : Z }.

Definition limiter_options : LimiterOptions :=
  {| maxConcurrent := DUST_RATE_LIMIT;
     minTime := (60 * 1000) / DUST_RATE_LIMIT |}.

(** The path of [dustApi.post] in [upsertToDustDatasource]. *)
Definition document_path (cfg : Config) (docId : string) : string :=
  "/w/" ++ DUST_WORKSPACE_ID cfg ++ "/vaults/" ++ DUST_VAULT_ID cfg
    ++ "/data_sources/" ++ DUST_DATASOURCE_ID cfg
    ++ "/documents/" ++ docId.

(** The Dust endpoint: whether the upsert sent by the [i]-th scheduled
    job, to this path and with this text, is accepted. *)
Definition Dust := nat -> string -> string -> bool.

(** How the promise of one job settles. *)
Inductive Settlement := Resolves | Rejects.

(** [upsertToDustDatasource(issue)], run as the [i]-th job: one POST;
    on success a log line, on failure a log line and [throw error]. *)
Definition upsertToDustDatasource (cfg : Config) (dust : Dust) (i : nat)
    (issue : JiraIssue) : Settlement * LogLine :=
  if dust i (document_path cfg (documentId issue)) (content issue)
  then (Resolves, Upserted (key issue))
  else (Rejects, ErrorUpserting (key issue)).

(** [main] suspended on [await Promise.all(tasks)]: still waiting for
    [remaining] promises, or already resumed. *)
Inductive Awaiter := Awaiting (remaining : nat) | Resumed.

(** [Promise.all(tasks)] when it is called: an empty array fulfils at
    once and [main] prints its last line. *)
Definition promise_all (n : nat) : Awaiter * list Event :=
  match n with
  | O => (Resumed, [Log AllProcessed])
  | S _ => (Awaiting n, [])
  end.

(** One promise of the array settles.  The first rejection rejects the
    aggregate and [main] resumes in its [catch]; the last fulfilment
    fulfils it and [main] resumes after the [await]. *)
Definition promise_all_step (a : Awaiter) (s : Settlement)
  : Awaiter * list Event :=
  match a, s with
  | Resumed, _ => (Resumed, [])
  | Awaiting _, Rejects => (Resumed, [Log AnErrorOccurred])
  | Awaiting (S (S n)), Resolves => (Awaiting (S n), [])
  | Awaiting _, Resolves => (Resumed, [Log AllProcessed])
  end.

(** What happens to the scheduled jobs, in the order in which it
    happens; the limiter and the network decide that order.
    - [Finishes i]: the upsert of job [i] has its answer, and
      [upsertToDustDatasource] prints its line;
    - [Settles i]: the promise that [limiter.schedule] returned for job
      [i] settles, with the outcome of the job.  The limiter does so in
      a later turn of the event loop than the job itself, so that lines
      of other jobs can come between the two.
    In a run of the script [Finishes i] comes before [Settles i]; the
    definitions below take any list of steps. *)
Inductive Step := Finishes (i : nat) | Settles (i : nat).

(** The jobs run while [main] is suspended on [Promise.all], which
    watches the promises [limiter.schedule] returned; a job prints its
    line whether or not [main] has resumed. *)
Fixpoint settle_all (cfg : Config) (dust : Dust) (tasks : list JiraIssue)
    (steps : list Step) (a : Awaiter) : list Event :=
  match steps with
  | [] => []
  | Finishes i :: rest =>
      match nth_error tasks i with
      | None => settle_all cfg dust tasks rest a
      | Some issue =>
          Log (snd (upsertToDustDatasource cfg dust i issue))
            :: settle_all cfg dust tasks rest a
      end
  | Settles i :: rest =>
      match nth_error tasks i with
      | None => settle_all cfg dust tasks rest a
      | Some issue =>
          let (a', resumed) :=
            promise_all_step a (fst (upsertToDustDatasource cfg dust i issue)) in
          (resumed ++ settle_all cfg dust tasks rest a')%list
      end
  end.

(** The delivery stage of [main]: schedule one job per issue, then
    [await Promise.all(tasks)] inside [try]/[catch]. *)
Definition deliver (cfg : Config) (dust : Dust) (recentIssues : list JiraIssue)
    (steps : list Step) : list Event :=
  let (a, now) := promise_all (List.length recentIssues) in
  (now ++ settle_all cfg dust recentIssues steps a)%list.

(** [main]: everything that is observed, oldest first; [None] when the
    fetch loop does not exit within [fuel] iterations. *)
Definition main (fuel : nat) (cfg : Config) (srv : Server) (dust : Dust)
    (steps : list Step) : option (list Event) :=
  match getIssuesUpdatedLast24Hours fuel srv world0 with
  | None => None
  | Some (recentIssues, w) =>
      let w1 := emit (Log (Found (List.length recentIssues))) w in
      Some (trace w1 ++ deliver cfg dust recentIssues steps)%list
  end.

(* ------------------------------------------------------------------ *)
(** * Observations on a run *)

(** ** Reading a trace *)

(** The offsets of the page requests, in the order they were sent. *)
Definition offsets (tr : list Event) : list Z :=
  flat_map (fun e => match e with
                     | Post r => [req_startAt r]
                     | _ => []
                     end) tr.

(** Whether the fetch loop went through its [catch]. *)
Definition fetch_failed (tr : list Event) : bool :=
  existsb (fun e => match e with
                    | Log (ErrorFetching _) => true
                    | _ => false
                    end) tr.

(** Whether [main] went through its [catch]. *)
Definition run_failed (tr : list Event) : bool :=
  existsb (fun e => match e with
                    | Log AnErrorOccurred => true
                    | _ => false
                    end) tr.

(** The line a job prints when its upsert has its answer. *)
Definition is_settlement (e : Event) : bool :=
  match e with
  | Log (Upserted _) | Log (ErrorUpserting _) => true
  | _ => false
  end.

(** The last line of [main]: the success line or the [catch] line. *)
Definition is_main_end (e : Event) : bool :=
  match e with
  | Log AllProcessed | Log AnErrorOccurred => true
  | _ => false
  end.


(** ** A run of the fetcher from the initial world *)

(** How many page requests the fetcher sends. *)
Definition page_requests (fuel : nat) (srv : Server) : option nat :=
  match getIssuesUpdatedLast24Hours fuel srv world0 with
  | Some (_, w) => Some (List.length (offsets (trace w)))
  | None => None
  end.

(** The array the fetcher's promise fulfils with. *)
Definition fetched (fuel : nat) (srv : Server) : option (list JiraIssue) :=
  option_map fst (getIssuesUpdatedLast24Hours fuel srv world0).

(** The events of the fetch. *)
Definition fetch_trace (fuel : nat) (srv : Server) : option (list Event) :=
  option_map (fun r => trace (snd r))
    (getIssuesUpdatedLast24Hours fuel srv world0).

(** ** The stages of one page request *)

(** The world once the page at offset [s] was requested. *)
Definition posted (s : Z) (w : World) : World :=
  {| clock := S (clock w);
     trace := (trace w ++ [Post (page_request s)])%list |}.

(** The world once a 429 carrying the header [hdr] was handled: the
    request, the log line and the sleep. *)
Definition backed_off (s : Z) (hdr : option string) (w : World) : World :=
  let retryAfter := ParseInt.parseInt (JS.or_string hdr "60") in
  emit (Sleep (option_map (Z.mul 1000) retryAfter))
    (emit (Log (RateLimited retryAfter)) (posted s w)).

(** The same for the 429 answers carrying the headers [hdrs], one after
    the other. *)
Definition backoffs (s : Z) (hdrs : list (option string)) (w : World)
  : World :=
  fold_left (fun w' hdr => backed_off s hdr w') hdrs w.

(** The header a response asks to wait on, if it is a 429. *)
Definition retry_header (r : Response) : option (option string) :=
  match r with
  | Rejected e => rate_limited e
  | Fulfilled _ => None
  end.

(** ** Page arithmetic *)

(** The ceiling of [t / 50]. *)
Definition ceil_pages (t : nat) : nat := (t + 49) / 50.

(** The number of page requests the loop sends to a well-behaved Jira
    holding [t] records: the body of a [do .. while] runs at least once. *)
Definition pages (t : nat) : nat := Nat.max 1 (ceil_pages t).

(** The offsets [0, 50, .., 50 (n - 1)]. *)
Definition page_offsets (n : nat) : list Z :=
  map (fun k => (maxResults * Z.of_nat k)%Z) (seq 0 n).

(** The loop variables when [k] pages of the set [data] were fetched. *)
Definition after_pages (data : list JiraIssue) (k : nat) (tot : Z)
  : FetchState :=
  {| allIssues := firstn (50 * k) data;
     startAt := (maxResults * Z.of_nat k)%Z;
     total_seen := tot |}.

(** ** Reading the delivery stage *)

(** Whether Dust accepts the upsert of the [i]-th job. *)
Definition accepts (cfg : Config) (dust : Dust) (tasks : list JiraIssue)
    (i : nat) : bool :=
  match nth_error tasks i with
  | Some issue => dust i (document_path cfg (documentId issue)) (content issue)
  | None => true
  end.

(** The jobs whose promise settles, in the order in which they do. *)
Definition settles_of (steps : list Step) : list nat :=
  flat_map (fun s => match s with
                     | Settles i => [i]
                     | Finishes _ => []
                     end) steps.

(** The lines the jobs print during [steps], in that order. *)
Definition job_lines (cfg : Config) (dust : Dust) (tasks : list JiraIssue)
    (steps : list Step) : list Event :=
  flat_map (fun s =>
              match s with
              | Finishes i =>
                  match nth_error tasks i with
                  | Some issue =>
                      [Log (snd (upsertToDustDatasource cfg dust i issue))]
                  | None => []
                  end
              | Settles _ => []
              end) steps.

(** ** Updating the time-tracking fields of a record *)

Definition with_time_tracking (toe te ts : option Z) (issue : JiraIssue)
  : JiraIssue :=
  let f := fields issue in
  {| id := id issue; key := key issue; self := self issue;
     fields :=
       {| summary := summary f; description := description f;
          issuetype := issuetype f; status := status f;
          priority := priority f; assignee := assignee f;
          reporter := reporter f; project := project f;
          created := created f; updated := updated f;
          resolutiondate := resolutiondate f; resolution := resolution f;
          labels := labels f; components := components f;
          sprint := sprint f; epic := epic f;
          timeoriginalestimate := toe; timeestimate := te; timespent := ts;
          votes := votes f; watches := watches f;
          fixVersions := fixVersions f; versions := versions f;
          subtasks := subtasks f; issuelinks := issuelinks f;
          attachment := attachment f; comment := comment f |} |}.

Definition set_timeoriginalestimate (v : option Z) (issue : JiraIssue) :=
  with_time_tracking v (timeestimate (fields issue))
    (timespent (fields issue)) issue.

Definition set_timeestimate (v : option Z) (issue : JiraIssue) :=
  with_time_tracking (timeoriginalestimate (fields issue)) v
    (timespent (fields issue)) issue.

Definition set_timespent (v : option Z) (issue : JiraIssue) :=
  with_time_tracking (timeoriginalestimate (fields issue))
    (timeestimate (fields issue)) v issue.

(* ------------------------------------------------------------------ *)
(** * Sample inputs *)

Definition alice : Person :=
  {| displayName := "Alice"; emailAddress := "alice@example.com" |}.

(** A record whose optional fields are all absent and whose collections
    are all empty. *)
Definition bare_fields : Fields :=
  {| summary := "Crash on start"; description := None;
     issuetype := "Bug"; status := "Open"; priority := "High";
     assignee := None; reporter := alice;
     project := {| project_key := "PRJ"; project_name := "Project" |};
     created := "2024-01-01"; updated := "2024-01-02";
     resolutiondate := None; resolution := None;
     labels := []; components := []; sprint := None; epic := None;
     timeoriginalestimate := None; timeestimate := None; timespent := None;
     votes := 0; watches := 1;
     fixVersions := []; versions := []; subtasks := [];
     issuelinks := []; attachment := []; comment := [] |}.

Definition bare_issue (k : string) : JiraIssue :=
  {| id := "10001"; key := k;
     self := "https://x.atlassian.net/rest/api/3/issue/10001";
     fields := bare_fields |}.

(** [n] sample records with keys [K-0 .. K-(n-1)]. *)
Definition sample_issues (n : nat) : list JiraIssue :=
  map (fun i => bare_issue ("K-" ++ NilZero.string_of_uint (Nat.to_uint i)))
      (seq 0 n).

(** A Jira holding the fixed result set [data]: a page is the window of
    [maxResults] records at [startAt], and the reported total is the size
    of the set. *)
Definition paged_server (data : list JiraIssue) : Server :=
  fun _ req =>
    Fulfilled
      {| issues := firstn (Z.to_nat (req_maxResults req))
                     (skipn (Z.to_nat (req_startAt req)) data);
         total := Z.of_nat (List.length data) |}.

(** A Jira that always reports [tot] records and never returns one. *)
Definition empty_pages_server (tot : Z) : Server :=
  fun _ _ => Fulfilled {| issues := []; total := tot |}.

(** A Jira that reports three records and returns one per page. *)
Definition one_record_server : Server :=
  fun _ _ => Fulfilled {| issues := [bare_issue "K-0"]; total := 3 |}.

(** A Jira that answers 429 to everything. *)
Definition always_429 (hdr : option string) : Server :=
  fun _ _ => Rejected (AxiosResponseError 429 hdr).

(** A Jira answering [first] to request 0 and an empty result after. *)
Definition first_then_empty (first : Response) : Server :=
  fun n _ =>
    match n with
    | O => first
    | S _ => Fulfilled {| issues := []; total := 0 |}
    end.

Definition sample_config : Config :=
  {| DUST_WORKSPACE_ID := "w1"; DUST_VAULT_ID := "v1";
     DUST_DATASOURCE_ID := "d1" |}.

(** A Dust that rejects the job of index [j] and accepts the others. *)
Definition rejects_only (j : nat) : Dust :=
  fun i _ _ => negb (Nat.eqb i j).

(* ------------------------------------------------------------------ *)
(** * Start-up: the environment *)

(** [process.env]. *)
Definition Env := string -> option string.

(** [const DEFAULT_JIRA_QUERY] *)
Definition DEFAULT_JIRA_QUERY : string :=
  "updated >= -24h ORDER BY updated DESC".

(** [const JIRA_QUERY = process.env.JIRA_QUERY || DEFAULT_JIRA_QUERY] *)
Definition JIRA_QUERY (env : Env) : string :=
  JS.or_string (env "JIRA_QUERY") DEFAULT_JIRA_QUERY.

(** [const requiredEnvVars] *)
Definition requiredEnvVars : list string :=
  [ "JIRA_SUBDOMAIN"; "JIRA_EMAIL"; "JIRA_API_TOKEN"; "DUST_API_KEY";
    "DUST_WORKSPACE_ID"; "DUST_VAULT_ID"; "DUST_DATASOURCE_ID" ].

(** [!process.env[varName]]: unset, or set to the empty string. *)
Definition env_missing (env : Env) (varName : string) : bool :=
  match env varName with
  | Some v => String.eqb v ""
  | None => true
  end.

(** [const missingEnvVars = requiredEnvVars.filter(..)] *)
Definition missingEnvVars (env : Env) : list string :=
  filter (env_missing env) requiredEnvVars.

(** The start-up check: [Some message] when it throws
    [new Error(message)], [None] when the script goes on. *)
Definition startup_check (env : Env) : option string :=
  match missingEnvVars env with
  | [] => None
  | _ :: _ =>
      Some ("Please provide values for the following environment variables: "
              ++ JS.join ", " (missingEnvVars env))
  end.

(* ------------------------------------------------------------------ *)
(** * Further observations and sample inputs *)

(** Whether [link.inwardIssue || link.outwardIssue] is an issue. *)
Definition has_linked_issue (link : IssueLink) : bool :=
  match inwardIssue link, outwardIssue link with
  | None, None => false
  | _, _ => true
  end.

(** The text of one paragraph of a description. *)
Definition paragraph_text (c : option (list string)) : string :=
  match c with
  | Some runs => JS.join "" runs
  | None => ""
  end.

(** The first line of the block [formatComments] prints for a comment. *)
Definition author_line (c : Comment) : string :=
  "[" ++ comment_created c ++ "] Author: "
    ++ displayName (comment_author c)
    ++ " (" ++ emailAddress (comment_author c) ++ ")".

(** The offsets [50 k, 50 (k + 1), ..], the [i]-th one repeated as many
    times as [counts] says. *)
Fixpoint page_runs (k : nat) (counts : list nat) : list Z :=
  match counts with
  | [] => []
  | c :: cs =>
      (repeat (maxResults * Z.of_nat k)%Z c ++ page_runs (S k) cs)%list
  end.

(** A Jira holding the set [data] that never returns more than [cap]
    records in a page, whatever [maxResults] asks for. *)
Definition capped_server (cap : nat) (data : list JiraIssue) : Server :=
  fun _ req =>
    Fulfilled
      {| issues := firstn (Nat.min cap (Z.to_nat (req_maxResults req)))
                     (skipn (Z.to_nat (req_startAt req)) data);
         total := Z.of_nat (List.length data) |}.

(** A Jira that serves the set [data] page by page for its first [k]
    answers and fails with [e] from then on. *)
Definition failing_after (k : nat) (data : list JiraIssue) (e : Error)
  : Server :=
  fun n req => if Nat.ltb n k then paged_server data n req else Rejected e.

(** An environment in which every required variable is set. *)
Definition full_env : Env :=
  fun v => if existsb (String.eqb v) requiredEnvVars then Some "x" else None.

(** The same without [DUST_API_KEY], and with an empty [JIRA_EMAIL]. *)
Definition partial_env : Env :=
  fun v =>
    if String.eqb v "DUST_API_KEY" then None
    else if String.eqb v "JIRA_EMAIL" then Some ""
    else full_env v.

(** The record [issue] with the comments [cs]. *)
Definition with_comments (cs : list Comment) (issue : JiraIssue) : JiraIssue :=
  let f := fields issue in
  {| id := id issue; key := key issue; self := self issue;
     fields :=
       {| summary := summary f; description := description f;
          issuetype := issuetype f; status := status f;
          priority := priority f; assignee := assignee f;
          reporter := reporter f; project := project f;
          created := created f; updated := updated f;
          resolutiondate := resolutiondate f; resolution := resolution f;
          labels := labels f; components := components f;
          sprint := sprint f; epic := epic f;
          timeoriginalestimate := timeoriginalestimate f;
          timeestimate := timeestimate f; timespent := timespent f;
          votes := votes f; watches := watches f;
          fixVersions := fixVersions f; versions := versions f;
          subtasks := subtasks f; issuelinks := issuelinks f;
          attachment := attachment f; comment := cs |} |}.

(** The number a decimal numeral denotes, most significant digit first,
    after the digits already read gave [acc]. *)
Fixpoint uint_value (acc : Z) (d : Decimal.uint) : Z :=
  match d with
  | Decimal.Nil => acc
  | Decimal.D0 d => uint_value (10 * acc + 0) d
  | Decimal.D1 d => uint_value (10 * acc + 1) d
  | Decimal.D2 d => uint_value (10 * acc + 2) d
  | Decimal.D3 d => uint_value (10 * acc + 3) d
  | Decimal.D4 d => uint_value (10 * acc + 4) d
  | Decimal.D5 d => uint_value (10 * acc + 5) d
  | Decimal.D6 d => uint_value (10 * acc + 6) d
  | Decimal.D7 d => uint_value (10 * acc + 7) d
  | Decimal.D8 d => uint_value (10 * acc + 8) d
  | Decimal.D9 d => uint_value (10 * acc + 9) d
  end.

(** The largest delay in ms that a Node timer takes as given; with a
    delay above it, or below 1, the timer fires after 1 ms. *)
Definition TIMEOUT_MAX : Z := 2147483647.

(* ================================================================== *)
(** * Properties of the formatter *)

Section StringFacts.

Lemma app_assoc_s (a b c : string) : (a ++ b) ++ c = a ++ (b ++ c).
Proof. induction a as [|x a IH]; simpl; [reflexivity | now rewrite IH]. Qed.

Lemma app_empty_r (a : string) : a ++ "" = a.
Proof. induction a as [|x a IH]; simpl; [reflexivity | now rewrite IH]. Qed.

Lemma lines_not_nil (s : string) : lines s <> [].
Proof.
  induction s as [|c s IH]; simpl; [discriminate|].
  destruct (Ascii.eqb c LF); [discriminate|].
  destruct (lines s); [contradiction | discriminate].
Qed.

Lemma lines_app_nl (a b : string) :
  lines (a ++ String LF b) = (lines a ++ lines b)%list.
Proof.
  induction a as [|c a IH]; simpl.
  - reflexivity.
  - destruct (Ascii.eqb c LF); rewrite IH; [reflexivity|].
    pose proof (lines_not_nil a) as Hne.
    destruct (lines a); [contradiction | reflexivity].
Qed.

Lemma lines_no_LF (s : string) : has_LF s = false -> lines s = [s].
Proof.
  induction s as [|c s IH]; simpl; [reflexivity|].
  intros H. apply orb_false_iff in H as [Hc Hs].
  rewrite Hc, (IH Hs). reflexivity.
Qed.

Lemma join_cons (sep x : string) (xs : list string) :
  xs <> [] -> join sep (x :: xs) = x ++ sep ++ join sep xs.
Proof. destruct xs; [contradiction | reflexivity]. Qed.

Lemma join_app (sep : string) (xs ys : list string) :
  xs <> [] -> ys <> [] ->
  join sep (xs ++ ys) = join sep xs ++ sep ++ join sep ys.
Proof.
  intros Hx Hy. induction xs as [|x xs IH]; [contradiction|].
  destruct xs as [|x' xs].
  - simpl app. rewrite join_cons by assumption. reflexivity.
  - change ((x :: x' :: xs) ++ ys)%list with (x :: ((x' :: xs) ++ ys))%list.
    rewrite join_cons by discriminate.
    rewrite IH by discriminate.
    rewrite (join_cons sep x (x' :: xs)) by discriminate.
    now rewrite !app_assoc_s.
Qed.

Lemma lines_join (xs : list string) :
  xs <> [] -> lines (join nl xs) = flat_map lines xs.
Proof.
  induction xs as [|x xs IH]; [contradiction|]. intros _.
  destruct xs as [|x' xs].
  - simpl. now rewrite app_nil_r.
  - rewrite join_cons by discriminate.
    change (nl ++ join nl (x' :: xs)) with (String LF (join nl (x' :: xs))).
    rewrite lines_app_nl, IH by discriminate. reflexivity.
Qed.

Lemma trimEnd_nonspace (c : ascii) (s : string) :
  is_space c = false -> trimEnd (String c s) = String c (trimEnd s).
Proof. intros H. simpl. rewrite H. now destruct (trimEnd s). Qed.

Lemma trimEnd_app (a b : string) :
  trimEnd b <> "" -> trimEnd (a ++ b) = a ++ trimEnd b.
Proof.
  intros Hb. induction a as [|c a IH]; simpl; [reflexivity|].
  rewrite IH. destruct (a ++ trimEnd b) eqn:E; [|reflexivity].
  destruct a; simpl in E; [contradiction | discriminate].
Qed.

Lemma trimEnd_prefix (s : string) : exists ws, s = trimEnd s ++ ws.
Proof.
  induction s as [|c s [ws IH]]; simpl.
  - now exists "".
  - destruct (trimEnd s) eqn:E.
    + destruct (is_space c).
      * now exists (String c s).
      * exists s. reflexivity.
    + exists ws. simpl. now rewrite IH at 1.
Qed.

End StringFacts.

Section FormatterFacts.

Variable issue : JiraIssue.

Lemma template_head_not_nil : template_head issue <> [].
Proof. discriminate. Qed.

(** Past the leading line break the template starts with [Issue Key:]. *)
Lemma template_body_starts (rest : list string) :
  exists r, join nl (template_head issue ++ rest) = String "I" r.
Proof.
  unfold template_head. cbv zeta. cbn [app]. unfold join.
  cbn [String.concat append]. eexists. reflexivity.
Qed.

(** [trim] removes the first line break and, at the far end, only white
    space that follows [Comments:]. *)
Lemma content_shape :
  exists t,
    content issue = join nl (template_head issue ++ ["Comments:"]) ++ t
    /\ (t = "" \/ exists t', t = String LF t').
Proof.
  set (fc := formatComments (comment (fields issue))).
  set (R := String LF (fc ++ String LF "  ")).
  exists (trimEnd R). split.
  - unfold content, trim, template.
    fold fc.
    replace ([""] ++ template_head issue ++ ["Comments:"; fc; "  "])%list
      with ("" :: (template_head issue ++ ["Comments:"; fc; "  "]))%list
      by reflexivity.
    rewrite join_cons
      by (intros E; apply app_eq_nil in E as [_ E]; discriminate).
    change ("" ++ nl ++ ?x) with (String LF x).
    cbn [trimStart]. change (is_space LF) with true. cbv iota.
    destruct (template_body_starts ["Comments:"; fc; "  "]) as [r Hr].
    rewrite Hr. cbn [trimStart]. change (is_space "I") with false. cbv iota.
    rewrite <- Hr. clear r Hr.
    rewrite !join_app by (try apply template_head_not_nil; discriminate).
    change (join nl ["Comments:"; fc; "  "]) with ("Comments:" ++ R).
    change (join nl ["Comments:"]) with "Comments:".
    assert (HC : trimEnd ("Comments:" ++ R) = "Comments:" ++ trimEnd R).
    { cbn [append]. now rewrite !trimEnd_nonspace by reflexivity. }
    rewrite <- (app_assoc_s (join nl (template_head issue)) nl).
    rewrite trimEnd_app; rewrite HC.
    + now rewrite !app_assoc_s.
    + discriminate.
  - destruct (trimEnd_prefix R) as [ws Hws].
    destruct (trimEnd R) as [|c t']; [now left | right].
    exists t'. unfold R in Hws. simpl in Hws. now inversion Hws.
Qed.

(** Every line of the template head that holds no line break of its own
    is a line of the document. *)
Lemma content_has_line (p : string) :
  In p (template_head issue) -> has_LF p = false ->
  has_line p (content issue).
Proof.
  intros Hin Hlf. unfold has_line.
  assert (HA : In p (lines (join nl (template_head issue ++ ["Comments:"])))).
  { rewrite lines_join
      by (intros E; apply app_eq_nil in E as [_ E]; discriminate).
    apply in_flat_map. exists p. split.
    - apply in_or_app. now left.
    - rewrite (lines_no_LF p Hlf). now left. }
  destruct content_shape as [t [-> [-> | [t' ->]]]].
  - now rewrite app_empty_r.
  - rewrite lines_app_nl. apply in_or_app. now left.
Qed.

End FormatterFacts.

(** Find a rendered line in the template head once the field it prints
    has been rewritten to its value. *)
Ltac pick_line H :=
  apply content_has_line;
  [ unfold template_head; cbv zeta; rewrite H;
    repeat (first [ left; reflexivity | right ])
  | reflexivity ].

(** C6. Formatting is a total function of the record, and an absent
    optional field or an empty collection keeps its line: a null assignee
    gives the line [Assignee: Unassigned], a null resolution
    [Resolution: Unresolved], a null resolution date, sprint or epic the
    token [N/A], and an empty collection its label followed by the empty
    string. *)
Theorem formatting_total_on_absent_fields (issue : JiraIssue) :
  let f := fields issue in
  let doc := content issue in
  (assignee f = None -> has_line "Assignee: Unassigned" doc) /\
  (resolution f = None -> has_line "Resolution: Unresolved" doc) /\
  (resolutiondate f = None -> has_line "Resolution Date: N/A" doc) /\
  (sprint f = None -> has_line "Sprint: N/A" doc) /\
  (epic f = None -> has_line "Epic: N/A" doc) /\
  (labels f = [] -> has_line "Labels: " doc) /\
  (components f = [] -> has_line "Components: " doc) /\
  (fixVersions f = [] -> has_line "Fix Versions: " doc) /\
  (versions f = [] -> has_line "Affected Versions: " doc) /\
  (subtasks f = [] -> has_line "Subtasks: " doc) /\
  (issuelinks f = [] -> has_line "Issue Links: " doc) /\
  (attachment f = [] -> has_line "Attachments: " doc).
Proof.
  cbv zeta. repeat split; intros H; pick_line H.
Qed.

(** The record with every optional field absent and every collection
    empty. *)
Lemma formatting_total_on_absent_fields_witness :
  let doc := content (bare_issue "PRJ-1") in
  has_line "Assignee: Unassigned" doc /\
  has_line "Resolution: Unresolved" doc /\
  has_line "Resolution Date: N/A" doc /\
  has_line "Sprint: N/A" doc /\
  has_line "Epic: N/A" doc /\
  has_line "Labels: " doc /\
  has_line "Components: " doc /\
  has_line "Fix Versions: " doc /\
  has_line "Affected Versions: " doc /\
  has_line "Subtasks: " doc /\
  has_line "Issue Links: " doc /\
  has_line "Attachments: " doc.
Proof.
  destruct (formatting_total_on_absent_fields (bare_issue "PRJ-1"))
    as (H1 & H2 & H3 & H4 & H5 & H6 & H7 & H8 & H9 & H10 & H11 & H12).
  cbv zeta.
  repeat split;
    [ apply H1 | apply H2 | apply H3 | apply H4 | apply H5 | apply H6
    | apply H7 | apply H8 | apply H9 | apply H10 | apply H11 | apply H12 ];
    reflexivity.
Defined.

(** C7. The document identifier is ["issue-"] followed by the record's
    key and depends on nothing else: two records with the same key get
    the same identifier and are posted to the same path. *)
Theorem documentId_is_function_of_key (a b : JiraIssue) :
  documentId a = "issue-" ++ key a /\
  (key a = key b ->
   documentId a = documentId b /\
   forall cfg, document_path cfg (documentId a)
               = document_path cfg (documentId b)).
Proof.
  split; [reflexivity|]. intros H. unfold documentId. now rewrite H.
Qed.

(** Two records that differ in their fields and share the key [PRJ-1]. *)
Lemma documentId_is_function_of_key_witness :
  documentId (bare_issue "PRJ-1")
  = documentId (with_time_tracking (Some 3600%Z) None None
                  (bare_issue "PRJ-1")).
Proof.
  apply (documentId_is_function_of_key
           (bare_issue "PRJ-1")
           (with_time_tracking (Some 3600%Z) None None (bare_issue "PRJ-1"))).
  reflexivity.
Defined.

Lemma content_time_tracking (issue : JiraIssue) (a b c : option Z) :
  or_number a "N/A" = or_number (timeoriginalestimate (fields issue)) "N/A" ->
  or_number b "N/A" = or_number (timeestimate (fields issue)) "N/A" ->
  or_number c "N/A" = or_number (timespent (fields issue)) "N/A" ->
  content (with_time_tracking a b c issue) = content issue.
Proof.
  intros Ha Hb Hc. unfold content, template. f_equal. f_equal.
  unfold template_head, with_time_tracking. cbn.
  now rewrite Ha, Hb, Hc.
Qed.

(** C9. A time-tracking field that is the number 0 prints [N/A]: the
    document of a record with a zero original estimate, remaining
    estimate or time spent is the document of the same record with that
    field absent. *)
Theorem zero_estimate_renders_as_absent (issue : JiraIssue) :
  let f := fields issue in
  (timeoriginalestimate f = Some 0%Z ->
   has_line "  Original Estimate: N/A" (content issue) /\
   content issue = content (set_timeoriginalestimate None issue)) /\
  (timeestimate f = Some 0%Z ->
   has_line "  Remaining Estimate: N/A" (content issue) /\
   content issue = content (set_timeestimate None issue)) /\
  (timespent f = Some 0%Z ->
   has_line "  Time Spent: N/A" (content issue) /\
   content issue = content (set_timespent None issue)).
Proof.
  cbv zeta. repeat split; try pick_line H; symmetry;
    apply content_time_tracking; try reflexivity; now rewrite H.
Qed.

(** A record whose three time-tracking fields are 0. *)
Lemma zero_estimate_renders_as_absent_witness :
  let z := with_time_tracking (Some 0%Z) (Some 0%Z) (Some 0%Z)
             (bare_issue "PRJ-1") in
  has_line "  Original Estimate: N/A" (content z) /\
  has_line "  Remaining Estimate: N/A" (content z) /\
  has_line "  Time Spent: N/A" (content z) /\
  content z = content (set_timeoriginalestimate None z).
Proof.
  cbv zeta.
  destruct (zero_estimate_renders_as_absent
              (with_time_tracking (Some 0%Z) (Some 0%Z) (Some 0%Z)
                 (bare_issue "PRJ-1"))) as (H1 & H2 & H3).
  destruct (H1 eq_refl) as [L1 E1].
  destruct (H2 eq_refl) as [L2 _].
  destruct (H3 eq_refl) as [L3 _].
  repeat split; assumption.
Defined.

(* ================================================================== *)
(** * Properties of the fetcher *)

Section MakeRequest.

Variable srv : Server.
Variable s : Z.

Lemma makeRequest_fulfilled (rc : nat) (w : World) (d : SearchData) :
  srv (clock w) (page_request s) = Fulfilled d ->
  makeRequest srv s rc w = (Fulfilled d, posted s w).
Proof.
  intros H. simp makeRequest. unfold post. rewrite H.
  now simp makeRequest.
Qed.

Lemma makeRequest_not_429 (rc : nat) (w : World) (e : Error) :
  srv (clock w) (page_request s) = Rejected e -> rate_limited e = None ->
  makeRequest srv s rc w = (Rejected e, posted s w).
Proof.
  intros H Hn. simp makeRequest. unfold post. rewrite H.
  simp makeRequest. rewrite Hn. now destruct (lt_dec rc 3).
Qed.

Lemma makeRequest_exhausted (rc : nat) (w : World) (e : Error) :
  srv (clock w) (page_request s) = Rejected e -> 3 <= rc ->
  makeRequest srv s rc w = (Rejected e, posted s w).
Proof.
  intros H Hrc. simp makeRequest. unfold post. rewrite H.
  simp makeRequest. destruct (lt_dec rc 3); [lia|].
  now destruct (rate_limited e).
Qed.

Lemma makeRequest_retry (rc : nat) (w : World) (e : Error)
    (hdr : option string) :
  srv (clock w) (page_request s) = Rejected e ->
  rate_limited e = Some hdr -> rc < 3 ->
  makeRequest srv s rc w = makeRequest srv s (S rc) (backed_off s hdr w).
Proof.
  intros H Hr Hrc. rewrite makeRequest_equation_1 at 1.
  unfold post. rewrite H.
  simp makeRequest. rewrite Hr.
  destruct (lt_dec rc 3); [|lia]. now simp makeRequest.
Qed.

End MakeRequest.

Lemma offsets_app (a b : list Event) :
  offsets (a ++ b) = (offsets a ++ offsets b)%list.
Proof. unfold offsets. now rewrite flat_map_app. Qed.

Lemma firstn_window {A : Type} (n m : nat) (l : list A) :
  (firstn n l ++ firstn m (skipn n l))%list = firstn (n + m) l.
Proof.
  revert l. induction n as [|n IH]; intros l; [reflexivity|].
  destruct l as [|x l]; simpl.
  - now rewrite firstn_nil.
  - now rewrite IH.
Qed.

Lemma pages_bounds (t : nat) :
  (pages t - 1 = 0 \/ 50 * (pages t - 1) < t) /\ t <= 50 * pages t
  /\ 1 <= pages t.
Proof.
  unfold pages, ceil_pages.
  pose proof (Nat.div_mod_eq (t + 49) 50) as E.
  pose proof (Nat.mod_upper_bound (t + 49) 50) as B.
  lia.
Qed.

Section PagedServer.

Variable data : list JiraIssue.

Let T := List.length data.

(** From the state after [k] pages the loop fetches the [j + 1] pages
    that are left and exits with the whole set. *)
Lemma paged_loop (j : nat) :
  forall (k fuel : nat) (w : World) (tot : Z),
    (j = 0 \/ 50 * (k + j) < T) -> T <= 50 * (k + j + 1) -> j < fuel ->
    exists w',
      fetch_loop fuel (paged_server data) (after_pages data k tot) w
        = Some (data, w')
      /\ offsets (trace w')
         = (offsets (trace w)
              ++ map (fun i => (maxResults * Z.of_nat i)%Z) (seq k (S j)))%list
      /\ clock w' = clock w + S j.
Proof.
  induction j as [|j IH]; intros k fuel w tot Hlow Hhigh Hfuel;
    (destruct fuel as [|fuel]; [lia|]);
    cbn [fetch_loop];
    rewrite (makeRequest_fulfilled _ _ _ _ _ eq_refl);
    unfold continues, next_state;
    cbn [issues total allIssues startAt total_seen after_pages page_request
         req_startAt req_maxResults];
    replace (Z.to_nat (maxResults * Z.of_nat k)) with (50 * k)
      by (unfold maxResults; lia);
    change (Z.to_nat maxResults) with 50;
    rewrite firstn_window, length_firstn; fold T.
  - replace (Z.of_nat (Nat.min (50 * k + 50) T) <? Z.of_nat T)%Z with false
      by (symmetry; apply Z.ltb_ge; lia).
    rewrite firstn_all2 by (fold T; lia).
    eexists. split; [reflexivity|]. split.
    + unfold emit, posted. cbn [trace]. rewrite !offsets_app. cbn. 
      now rewrite app_nil_r.
    + cbn. lia.
  - replace (Z.of_nat (Nat.min (50 * k + 50) T) <? Z.of_nat T)%Z with true
      by (symmetry; apply Z.ltb_lt; lia).
    destruct (IH (S k) fuel
                (emit (Log (Retrieved (Nat.min (50 * k + 50) T)
                                      (Z.of_nat T)))
                      (posted (maxResults * Z.of_nat k) w))
                (Z.of_nat T)) as (w' & Hrun & Hoff & Hclk); try lia.
    exists w'. split; [|split].
    + unfold after_pages in Hrun.
      replace (50 * S k) with (50 * k + 50) in Hrun by lia.
      replace (maxResults * Z.of_nat (S k))%Z
        with (maxResults * Z.of_nat k + maxResults)%Z in Hrun
        by (unfold maxResults; lia).
      exact Hrun.
    + rewrite Hoff. unfold emit, posted. cbn [trace].
      rewrite !offsets_app. cbn [offsets flat_map req_startAt page_request
                                 app seq map].
      now rewrite <- !app_assoc.
    + rewrite Hclk. cbn. lia.
Qed.

End PagedServer.

Lemma offsets_emit_log (l : LogLine) (w : World) :
  offsets (trace (emit (Log l) w)) = offsets (trace w).
Proof. unfold emit. cbn [trace]. rewrite offsets_app. cbn. apply app_nil_r. Qed.

(** C1, as the code has it. Against a Jira that holds a fixed set of [T]
    records and serves it in windows of 50, the fetcher (given fuel for
    that many iterations) returns the whole set, hence [T] records, after
    exactly [max 1 (ceil (T / 50))] page requests at offsets 0, 50, 100,
    ...: three requests at 0, 50, 100 for [T = 120], and one request at
    offset 0 for [T = 0], since the body of the [do .. while] runs before
    the first test. *)
Theorem fetch_paged_server (data : list JiraIssue) (fuel : nat) :
  pages (List.length data) <= fuel ->
  exists w,
    getIssuesUpdatedLast24Hours fuel (paged_server data) world0
      = Some (data, w)
    /\ offsets (trace w) = page_offsets (pages (List.length data))
    /\ page_requests fuel (paged_server data)
       = Some (pages (List.length data))
    /\ page_offsets (pages 120) = [0; 50; 100]%Z
    /\ page_offsets (pages 0) = [0]%Z.
Proof.
  intros Hfuel.
  destruct (pages_bounds (List.length data)) as (Hlow & Hhigh & Hpos).
  destruct (paged_loop data (pages (List.length data) - 1) 0 fuel world0 0%Z)
    as (w' & Hrun & Hoff & Hclk); try lia.
  assert (Hget : getIssuesUpdatedLast24Hours fuel (paged_server data) world0
                 = Some (data, emit (Log (FinalTotal (List.length data))) w')).
  { unfold getIssuesUpdatedLast24Hours.
    change fetch_init with (after_pages data 0 0%Z). now rewrite Hrun. }
  assert (Hoffs : offsets (trace (emit (Log (FinalTotal (List.length data))) w'))
                  = page_offsets (pages (List.length data))).
  { rewrite offsets_emit_log, Hoff. cbn [world0 trace offsets flat_map app].
    unfold page_offsets.
    now replace (S (pages (List.length data) - 1))
      with (pages (List.length data)) by lia. }
  eexists. split; [exact Hget|]. split; [exact Hoffs|]. split.
  - unfold page_requests. rewrite Hget, Hoffs.
    unfold page_offsets. now rewrite length_map, length_seq.
  - split; reflexivity.
Qed.

(** A result set of 120 records. *)
Lemma fetch_paged_server_witness :
  exists w,
    getIssuesUpdatedLast24Hours 3 (paged_server (sample_issues 120)) world0
      = Some (sample_issues 120, w)
    /\ offsets (trace w) = [0; 50; 100]%Z.
Proof.
  destruct (fetch_paged_server (sample_issues 120) 3) as (w & H1 & H2 & _).
  - vm_compute. lia.
  - exists w. split; [exact H1 | exact H2].
Defined.

(** C1, as the claim states it, fails on the empty result: the formula
    gives [ceil (0 / 50) = 0] page requests, the loop sends one. *)
Lemma empty_result_still_costs_one_request :
  page_requests 1 (paged_server []) = Some 1
  /\ page_requests 1 (paged_server [])
     <> Some (ceil_pages (List.length (@nil JiraIssue))).
Proof. vm_compute. split; [reflexivity | discriminate]. Qed.

(** ** Errors of a page request *)

Section FetchErrors.

Variable srv : Server.

Lemma clock_backed_off (s : Z) (hdr : option string) (w : World) :
  clock (backed_off s hdr w) = S (clock w).
Proof. reflexivity. Qed.

(** [makeRequest] in full: as long as the answer is a 429 and fewer than
    three retries were made, it logs, sleeps and asks again; the first
    other answer, or the answer to the third retry, is its result. *)
Lemma makeRequest_backoffs (s : Z) (hdrs : list (option string)) :
  forall (rc : nat) (w : World) (r : Response),
    rc + List.length hdrs <= 3 ->
    (forall i h, nth_error hdrs i = Some h ->
       srv (clock w + i) (page_request s)
       = Rejected (AxiosResponseError 429 h)) ->
    srv (clock w + List.length hdrs) (page_request s) = r ->
    (rc + List.length hdrs = 3 \/ retry_header r = None) ->
    makeRequest srv s rc w = (r, posted s (backoffs s hdrs w)).
Proof.
  induction hdrs as [|h hdrs IH]; intros rc w r Hlen H429 Hr Hstop;
    cbn [List.length backoffs fold_left] in *.
  - rewrite Nat.add_0_r in Hr.
    destruct r as [d | e].
    + now apply makeRequest_fulfilled.
    + destruct Hstop as [Hrc | Hnot].
      * apply makeRequest_exhausted; [assumption | lia].
      * now apply makeRequest_not_429.
  - pose proof (H429 0 h eq_refl) as H0. rewrite Nat.add_0_r in H0.
    rewrite (makeRequest_retry srv s rc w _ h H0 eq_refl) by lia.
    apply IH.
    + lia.
    + intros i h' Hi. rewrite clock_backed_off.
      replace (S (clock w) + i) with (clock w + S i) by lia.
      now apply H429.
    + rewrite clock_backed_off. rewrite <- Hr. f_equal. lia.
    + destruct Hstop as [Hrc | Hnot]; [left; lia | now right].
Qed.

(** The [catch] of the loop: whatever [makeRequest] throws, the loop
    logs it, breaks and hands back the issues it holds. *)
Lemma fetch_loop_catch (fuel : nat) (st : FetchState) (w w1 : World)
    (e : Error) :
  makeRequest srv (startAt st) 0 w = (Rejected e, w1) ->
  fetch_loop (S fuel) srv st w
  = Some (allIssues st, emit (Log (ErrorFetching e)) w1).
Proof. intros H. cbn [fetch_loop]. now rewrite H. Qed.

End FetchErrors.

(** C3, as the code has it. An error on a page request that is not a 429
    with a response (a network failure, another HTTP status, any other
    exception) is not retried: after that single request the loop logs
    the error, exits, and the fetcher returns normally with the issues
    accumulated so far and nothing else. *)
Theorem non_429_error_ends_fetch (srv : Server) (st : FetchState)
    (w : World) (e : Error) (fuel : nat) :
  srv (clock w) (page_request (startAt st)) = Rejected e ->
  rate_limited e = None ->
  fetch_loop (S fuel) srv st w
  = Some (allIssues st,
          {| clock := S (clock w);
             trace := (trace w ++ [Post (page_request (startAt st));
                                   Log (ErrorFetching e)])%list |})
  /\ (st = fetch_init ->
      getIssuesUpdatedLast24Hours (S fuel) srv w
      = Some ([],
              {| clock := S (clock w);
                 trace := (trace w ++ [Post (page_request 0);
                                       Log (ErrorFetching e);
                                       Log (FinalTotal 0)])%list |})).
Proof.
  intros Hsrv Hnot.
  assert (Hloop : fetch_loop (S fuel) srv st w
          = Some (allIssues st,
                  {| clock := S (clock w);
                     trace := (trace w ++ [Post (page_request (startAt st));
                                           Log (ErrorFetching e)])%list |})).
  { rewrite (fetch_loop_catch srv fuel st w (posted (startAt st) w) e).
    - unfold emit, posted. cbn [clock trace]. now rewrite <- app_assoc.
    - now apply makeRequest_not_429. }
  split; [exact Hloop|]. intros ->.
  unfold getIssuesUpdatedLast24Hours. rewrite Hloop.
  unfold emit. cbn [clock trace allIssues fetch_init startAt List.length].
  now rewrite <- app_assoc.
Qed.

(** A Jira that answers the first request with an HTTP 500. *)
Lemma non_429_error_ends_fetch_witness :
  getIssuesUpdatedLast24Hours 1
    (first_then_empty (Rejected (AxiosResponseError 500 None))) world0
  = Some ([],
          {| clock := 1;
             trace := [Post (page_request 0);
                       Log (ErrorFetching (AxiosResponseError 500 None));
                       Log (FinalTotal 0)] |}).
Proof.
  destruct (non_429_error_ends_fetch
              (first_then_empty (Rejected (AxiosResponseError 500 None)))
              fetch_init world0 (AxiosResponseError 500 None) 0
              eq_refl eq_refl) as [_ H].
  exact (H eq_refl).
Defined.

(** C3, as the claim states it, fails: the value the fetcher returns
    carries no error signal.  A fetch that broke on an HTTP 500 and a
    fetch of an empty result return the same value. *)
Lemma fetch_result_carries_no_error_signal :
  fetched 1 (first_then_empty (Rejected (AxiosResponseError 500 None)))
  = fetched 1 (paged_server [])
  /\ option_map fetch_failed
       (fetch_trace 1
          (first_then_empty (Rejected (AxiosResponseError 500 None))))
     = Some true
  /\ option_map fetch_failed (fetch_trace 1 (paged_server [])) = Some false.
Proof. vm_compute. repeat split. Qed.

Lemma settle_all_no_tasks (cfg : Config) (dust : Dust) (steps : list Step)
    (a : Awaiter) :
  settle_all cfg dust [] steps a = [].
Proof.
  induction steps as [|[i|i] steps IH]; [reflexivity | |];
    cbn [settle_all]; now destruct i.
Qed.

Lemma run_failed_app (a b : list Event) :
  run_failed (a ++ b) = (run_failed a || run_failed b)%bool.
Proof. apply existsb_app. Qed.

Lemma run_failed_backoffs (s : Z) (hdrs : list (option string)) :
  forall w, run_failed (trace (backoffs s hdrs w)) = run_failed (trace w).
Proof.
  induction hdrs as [|h hdrs IH]; intros w; [reflexivity|].
  cbn [backoffs fold_left]. fold (backoffs s hdrs (backed_off s h w)).
  rewrite IH. unfold backed_off, emit, posted. cbn [trace].
  rewrite !run_failed_app. cbn. now rewrite !orb_false_r.
Qed.

(** C4, as the code has it. A page request answered by a 429 is logged,
    followed by a sleep of [parseInt(retry-after || "60") * 1000] ms (60
    s when the header is absent) and sent again for the same page, at
    most three times (four requests in all).  When the third retry fails
    too, [makeRequest] throws, and the [catch] of the fetch loop logs the
    error, exits the loop and returns the issues accumulated so far;
    [main] goes on with them, and on the first page it ends with its
    success line. *)
Theorem rate_limit_retry_policy (srv : Server) (st : FetchState) (w : World)
    (hdrs : list (option string)) (r : Response) (fuel : nat) :
  List.length hdrs <= 3 ->
  (forall i h, nth_error hdrs i = Some h ->
     srv (clock w + i) (page_request (startAt st))
     = Rejected (AxiosResponseError 429 h)) ->
  srv (clock w + List.length hdrs) (page_request (startAt st)) = r ->
  (List.length hdrs = 3 \/ retry_header r = None) ->
  let w429 := backoffs (startAt st) hdrs w in
  makeRequest srv (startAt st) 0 w = (r, posted (startAt st) w429)
  /\ (forall s hdr w0,
        let retryAfter := ParseInt.parseInt (JS.or_string hdr "60") in
        backed_off s hdr w0
        = {| clock := S (clock w0);
             trace := (trace w0
                         ++ [Post (page_request s);
                             Log (RateLimited retryAfter);
                             Sleep (option_map (Z.mul 1000) retryAfter)])%list |})
  /\ ParseInt.parseInt (JS.or_string None "60") = Some 60%Z
  /\ (forall e, r = Rejected e ->
        fetch_loop (S fuel) srv st w
        = Some (allIssues st,
                emit (Log (ErrorFetching e)) (posted (startAt st) w429)))
  /\ (forall e cfg dust steps,
        r = Rejected e -> st = fetch_init -> w = world0 ->
        exists tr,
          main (S fuel) cfg srv dust steps = Some tr
          /\ tr = (trace w429
                     ++ [Post (page_request 0); Log (ErrorFetching e);
                         Log (FinalTotal 0); Log (Found 0);
                         Log AllProcessed])%list
          /\ run_failed tr = false).
Proof.
  intros Hlen H429 Hr Hstop w429.
  assert (Hreq : makeRequest srv (startAt st) 0 w
                 = (r, posted (startAt st) w429))
    by (apply makeRequest_backoffs; auto).
  split; [exact Hreq|]. split.
  { intros s hdr w0. unfold backed_off, emit, posted. cbn [clock trace].
    now rewrite <- !app_assoc. }
  split; [reflexivity|]. split.
  { intros e ->. now apply fetch_loop_catch. }
  intros e cfg dust steps -> -> ->.
  eexists. split; [|split].
  - unfold main, getIssuesUpdatedLast24Hours.
    rewrite (fetch_loop_catch srv fuel fetch_init world0 _ e Hreq).
    cbn [allIssues fetch_init List.length]. unfold deliver.
    cbn [promise_all List.length]. rewrite settle_all_no_tasks.
    unfold emit, posted. cbn [trace clock startAt fetch_init].
    rewrite <- !app_assoc. reflexivity.
  - reflexivity.
  - rewrite run_failed_app. unfold w429.
    now rewrite run_failed_backoffs.
Qed.

(** A Jira that answers every request with a 429 and [retry-after: 2]. *)
Lemma rate_limit_retry_policy_witness :
  main 1 sample_config (always_429 (Some "2")) (rejects_only 0) []
  = Some [Post (page_request 0);
          Log (RateLimited (Some 2%Z)); Sleep (Some 2000%Z);
          Post (page_request 0);
          Log (RateLimited (Some 2%Z)); Sleep (Some 2000%Z);
          Post (page_request 0);
          Log (RateLimited (Some 2%Z)); Sleep (Some 2000%Z);
          Post (page_request 0);
          Log (ErrorFetching (AxiosResponseError 429 (Some "2")));
          Log (FinalTotal 0); Log (Found 0); Log AllProcessed].
Proof.
  destruct (rate_limit_retry_policy (always_429 (Some "2")) fetch_init world0
              [Some "2"; Some "2"; Some "2"]
              (Rejected (AxiosResponseError 429 (Some "2"))) 0)
    as (_ & _ & _ & _ & H).
  - cbn. lia.
  - intros i h Hi.
    destruct i as [|[|[|i]]]; cbn in Hi; try (now inversion Hi).
    destruct i; discriminate.
  - reflexivity.
  - now left.
  - destruct (H (AxiosResponseError 429 (Some "2")) sample_config
                (rejects_only 0) [] eq_refl eq_refl eq_refl)
      as (tr & Hmain & Htr & _).
    rewrite Hmain, Htr. reflexivity.
Defined.

(** C4, as the claim states it, fails: when every attempt is answered by
    a 429, four requests are sent, the fetcher returns the empty array,
    and [main] never enters its [catch]: the run ends with the success
    line. *)
Lemma retry_exhaustion_is_not_a_run_failure :
  exists tr,
    main 1 sample_config (always_429 None) (rejects_only 0) [] = Some tr
    /\ List.length (offsets tr) = 4
    /\ fetch_failed tr = true
    /\ run_failed tr = false
    /\ In (Log AllProcessed) tr.
Proof.
  eexists. split; [vm_compute; reflexivity|].
  repeat split; cbn; auto 20.
Qed.

(** ** Termination of the fetch loop *)

(** One successful iteration of the loop. *)
Lemma fetch_loop_fulfilled (srv : Server) (fuel : nat) (st : FetchState)
    (w w1 : World) (d : SearchData) :
  makeRequest srv (startAt st) 0 w = (Fulfilled d, w1) ->
  fetch_loop (S fuel) srv st w
  = let st' := next_state st d in
    let w2 := emit (Log (Retrieved (List.length (allIssues st'))
                                   (total_seen st'))) w1 in
    if continues st' then fetch_loop fuel srv st' w2
    else Some (allIssues st', w2).
Proof. intros H. cbn [fetch_loop]. now rewrite H. Qed.

(** A page [makeRequest] returns is an answer of the server. *)
Lemma makeRequest_fulfilled_inv (srv : Server) (s : Z) (n : nat) :
  forall (rc : nat) (w w1 : World) (d : SearchData),
    3 - rc < n ->
    makeRequest srv s rc w = (Fulfilled d, w1) ->
    exists k, srv k (page_request s) = Fulfilled d.
Proof.
  induction n as [|n IH]; intros rc w w1 d Hn H; [lia|].
  destruct (srv (clock w) (page_request s)) as [d' | e] eqn:E.
  - rewrite (makeRequest_fulfilled srv s rc w d' E) in H.
    inversion H; subst. now exists (clock w).
  - destruct (rate_limited e) as [hdr|] eqn:Er.
    + destruct (lt_dec rc 3) as [Hlt | Hge].
      * rewrite (makeRequest_retry srv s rc w e hdr E Er Hlt) in H.
        apply (IH (S rc) _ _ _ ltac:(lia) H).
      * rewrite (makeRequest_exhausted srv s rc w e E ltac:(lia)) in H.
        discriminate.
    + rewrite (makeRequest_not_429 srv s rc w e E Er) in H. discriminate.
Qed.

Section Progress.

Variable srv : Server.
Variable bound : nat.

(** Every page the server returns holds a record, and the totals it
    reports stay below [bound]. *)
Hypothesis progress :
  forall n req d, srv n req = Fulfilled d ->
    issues d <> [] /\ (total d <= Z.of_nat bound)%Z.

Lemma fetch_loop_terminates (fuel : nat) :
  forall (st : FetchState) (w : World),
    bound - List.length (allIssues st) < fuel ->
    exists r, fetch_loop fuel srv st w = Some r.
Proof.
  induction fuel as [|fuel IH]; intros st w Hfuel; [lia|].
  destruct (makeRequest srv (startAt st) 0 w) as [[d | e] w1] eqn:E.
  - rewrite (fetch_loop_fulfilled srv fuel st w w1 d E). cbv zeta.
    destruct (continues (next_state st d)) eqn:C; [|eexists; reflexivity].
    apply IH.
    destruct (makeRequest_fulfilled_inv srv (startAt st) 4 0 w w1 d
                ltac:(lia) E) as [k Hk].
    destruct (progress k _ d Hk) as [Hne Htot].
    unfold continues in C. apply Z.ltb_lt in C.
    cbn [next_state allIssues total_seen] in *.
    rewrite length_app in *.
    assert (1 <= List.length (issues d))
      by (destruct (issues d); [contradiction | cbn; lia]).
    lia.
  - rewrite (fetch_loop_catch srv fuel st w w1 e E). eexists. reflexivity.
Qed.

End Progress.

Lemma empty_pages_loop_runs_forever (tot : Z) :
  (0 < tot)%Z ->
  forall (fuel : nat) (st : FetchState) (w : World),
    allIssues st = [] ->
    fetch_loop fuel (empty_pages_server tot) st w = None.
Proof.
  intros Htot. induction fuel as [|fuel IH]; intros st w Hst; [reflexivity|].
  rewrite (fetch_loop_fulfilled _ fuel st w _ _
             (makeRequest_fulfilled _ _ _ _ _ eq_refl)).
  cbv zeta. unfold continues, next_state.
  cbn [allIssues total_seen issues total]. rewrite Hst. cbn [app List.length].
  replace (Z.of_nat 0 <? tot)%Z with true by (symmetry; apply Z.ltb_lt; lia).
  now apply IH.
Qed.

(** C10. Termination of the fetch loop is conditional.  A successful
    page moves the offset by the fixed page size 50 whatever number of
    records it held, and the loop goes on while the accumulated count is
    below the total reported last.  It exits, within [bound + 1]
    iterations, against every server whose pages each hold a record and
    whose totals stay below [bound] (an error exits at once); against a
    server that always reports a positive total and returns empty pages
    it never exits, whatever the number of iterations allowed. *)
Theorem fetch_termination_is_conditional :
  (forall srv fuel st w w1 d,
      makeRequest srv (startAt st) 0 w = (Fulfilled d, w1) ->
      let st' := next_state st d in
      startAt st' = (startAt st + 50)%Z
      /\ total_seen st' = total d
      /\ fetch_loop (S fuel) srv st w
         = let w2 := emit (Log (Retrieved (List.length (allIssues st'))
                                          (total_seen st'))) w1 in
           if (Z.of_nat (List.length (allIssues st')) <? total d)%Z
           then fetch_loop fuel srv st' w2
           else Some (allIssues st', w2))
  /\ (forall srv bound,
        (forall n req d, srv n req = Fulfilled d ->
           issues d <> [] /\ (total d <= Z.of_nat bound)%Z) ->
        forall fuel, bound < fuel ->
          exists r, getIssuesUpdatedLast24Hours fuel srv world0 = Some r)
  /\ (forall tot, (0 < tot)%Z ->
        forall fuel,
          getIssuesUpdatedLast24Hours fuel (empty_pages_server tot) world0
          = None).
Proof.
  split; [|split].
  - intros srv fuel st w w1 d H. cbv zeta.
    split; [reflexivity|]. split; [reflexivity|].
    now rewrite (fetch_loop_fulfilled srv fuel st w w1 d H).
  - intros srv bound Hprog fuel Hfuel.
    destruct (fetch_loop_terminates srv bound Hprog fuel fetch_init world0)
      as [[all w] Hr]; [cbn; lia|].
    unfold getIssuesUpdatedLast24Hours. rewrite Hr. eexists. reflexivity.
  - intros tot Htot fuel. unfold getIssuesUpdatedLast24Hours.
    now rewrite (empty_pages_loop_runs_forever tot Htot fuel fetch_init world0).
Qed.

(** A Jira returning one record per page, and one returning none. *)
Lemma fetch_termination_is_conditional_witness :
  (exists r, getIssuesUpdatedLast24Hours 4 one_record_server world0 = Some r)
  /\ getIssuesUpdatedLast24Hours 1000 (empty_pages_server 5) world0 = None
  /\ fetch_loop 2 one_record_server fetch_init world0
     = fetch_loop 1 one_record_server
         (next_state fetch_init {| issues := [bare_issue "K-0"]; total := 3 |})
         (emit (Log (Retrieved 1 3)) (posted 0 world0)).
Proof.
  destruct fetch_termination_is_conditional as (Hstep & Hterm & Hdiv).
  split; [|split].
  - apply (Hterm one_record_server 3); [|lia].
    intros n req d H. inversion H; subst. cbn. split; [discriminate | lia].
  - apply (Hdiv 5%Z). lia.
  - destruct (Hstep one_record_server 1 fetch_init world0
                (posted 0 world0)
                {| issues := [bare_issue "K-0"]; total := 3 |})
      as (_ & _ & H).
    + now apply makeRequest_fulfilled.
    + exact H.
Defined.

(* ================================================================== *)
(** * Properties of the delivery stage *)

Lemma settles_of_app (a b : list Step) :
  settles_of (a ++ b) = (settles_of a ++ settles_of b)%list.
Proof. apply flat_map_app. Qed.

(** A job whose promise settles in [steps] does so at some step. *)
Lemma settles_split (steps : list Step) :
  forall before i after,
    settles_of steps = (before ++ i :: after)%list ->
    exists pre post,
      steps = (pre ++ Settles i :: post)%list
      /\ settles_of pre = before /\ settles_of post = after.
Proof.
  induction steps as [|[j|j] steps IH]; intros before i after H.
  - destruct before; discriminate.
  - destruct (IH before i after H) as (pre & post & Hs & Hpre & Hpost).
    exists (Finishes j :: pre), post. rewrite Hs. repeat split; assumption.
  - change (settles_of (Settles j :: steps)) with (j :: settles_of steps) in H.
    destruct before as [|b before]; cbn [app] in H;
      injection H as Hj Hrest.
    + exists [], steps. rewrite Hj. repeat split. exact Hrest.
    + destruct (IH before i after Hrest) as (pre & post & Hs & Hpre & Hpost).
      exists (Settles j :: pre), post. rewrite Hs, Hj.
      change (settles_of (Settles b :: pre)) with (b :: settles_of pre).
      rewrite Hpre. repeat split. exact Hpost.
Qed.

Lemma NoDup_below_length (l : list nat) (n : nat) :
  NoDup l -> (forall x, In x l -> x < n) -> List.length l <= n.
Proof.
  intros Hnd Hlt. rewrite <- (length_seq n 0).
  apply NoDup_incl_length; [exact Hnd|].
  intros x Hx. apply in_seq. specialize (Hlt x Hx). lia.
Qed.


(** Lines of jobs are neither of the closing lines of [main]. *)
Lemma settlements_only (l : list Event) :
  Forall (fun e => is_settlement e = true) l ->
  filter is_main_end l = [] /\ run_failed l = false
  /\ ~ In (Log AllProcessed) l.
Proof.
  induction 1 as [|e l He _ (IH1 & IH2 & IH3)].
  - repeat split. intros [].
  - assert (He' : is_main_end e = false /\ run_failed [e] = false
                  /\ e <> Log AllProcessed)
      by (destruct e as [| |[]]; try discriminate;
          repeat split; discriminate).
    destruct He' as (H1 & H2 & H3).
    split; [|split].
    + cbn [filter]. now rewrite H1.
    + change (e :: l) with ([e] ++ l)%list.
      now rewrite run_failed_app, H2, IH2.
    + intros [Hx | Hx]; [exact (H3 Hx) | contradiction].
Qed.

Section Delivery.

Variable cfg : Config.
Variable dust : Dust.
Variable tasks : list JiraIssue.

Let N := List.length tasks.

Lemma job_lines_app (a b : list Step) :
  job_lines cfg dust tasks (a ++ b)
  = (job_lines cfg dust tasks a ++ job_lines cfg dust tasks b)%list.
Proof. apply flat_map_app. Qed.

Lemma job_lines_are_settlements (steps : list Step) :
  Forall (fun e => is_settlement e = true) (job_lines cfg dust tasks steps).
Proof.
  induction steps as [|[i|i] steps IH]; [constructor | | exact IH].
  cbn [job_lines flat_map]. fold (job_lines cfg dust tasks steps).
  destruct (nth_error tasks i) as [issue|]; [|exact IH].
  cbn [app]. constructor; [|exact IH].
  unfold upsertToDustDatasource. now destruct (dust i _ _).
Qed.


(** Once [main] has resumed, the jobs go on and print. *)
Lemma settle_all_resumed (steps : list Step) :
  settle_all cfg dust tasks steps Resumed = job_lines cfg dust tasks steps.
Proof.
  induction steps as [|[i|i] steps IH]; [reflexivity | |];
    cbn [settle_all job_lines flat_map];
    fold (job_lines cfg dust tasks steps);
    destruct (nth_error tasks i) as [issue|]; try exact IH.
  cbn [app]. now rewrite IH.
Qed.

(** While [main] waits for more promises than settle during [pre], all
    of them fulfilled, it stays suspended. *)
Lemma settle_all_accepted_prefix (pre : list Step) :
  forall (m : nat) (rest : list Step),
    (forall i, In i (settles_of pre) ->
       i < N /\ accepts cfg dust tasks i = true) ->
    List.length (settles_of pre) < m ->
    settle_all cfg dust tasks (pre ++ rest) (Awaiting m)
    = (job_lines cfg dust tasks pre
         ++ settle_all cfg dust tasks rest
              (Awaiting (m - List.length (settles_of pre))))%list.
Proof.
  induction pre as [|[i|i] pre IH]; intros m rest Hok Hlen.
  - cbn. now rewrite Nat.sub_0_r.
  - cbn [app settle_all job_lines flat_map settles_of] in *.
    fold (job_lines cfg dust tasks pre). fold (settles_of pre) in *.
    destruct (nth_error tasks i) as [issue|];
      rewrite (IH m rest Hok Hlen); reflexivity.
  - cbn [settles_of flat_map app List.length] in Hok, Hlen.
    fold (settles_of pre) in Hok, Hlen.
    destruct (Hok i (or_introl eq_refl)) as [Hi Hacc].
    destruct (nth_error tasks i) as [issue|] eqn:E;
      [|apply nth_error_None in E; unfold N in Hi; lia].
    cbn [app settle_all job_lines flat_map settles_of List.length].
    fold (job_lines cfg dust tasks pre). fold (settles_of pre).
    rewrite E. unfold accepts in Hacc. rewrite E in Hacc.
    unfold upsertToDustDatasource. rewrite Hacc. cbn [fst].
    destruct m as [|[|m]]; [lia | lia |].
    cbn [promise_all_step app].
    rewrite IH; [| intros j Hj; apply Hok; now right | lia].
    reflexivity.
Qed.

(** The first rejection resumes [main] in its [catch]. *)
Lemma settle_all_rejected (i m : nat) (rest : list Step) :
  i < N -> accepts cfg dust tasks i = false ->
  settle_all cfg dust tasks (Settles i :: rest) (Awaiting m)
  = Log AnErrorOccurred :: job_lines cfg dust tasks rest.
Proof.
  intros Hi Hrej.
  destruct (nth_error tasks i) as [issue|] eqn:E;
    [|apply nth_error_None in E; unfold N in Hi; lia].
  cbn [settle_all]. rewrite E.
  unfold accepts in Hrej. rewrite E in Hrej.
  unfold upsertToDustDatasource. rewrite Hrej. cbn [fst].
  destruct m as [|[|m]]; cbn [promise_all_step app];
    now rewrite settle_all_resumed.
Qed.

(** The last fulfilment resumes [main] after the [await]. *)
Lemma settle_all_last (i : nat) (rest : list Step) :
  i < N -> accepts cfg dust tasks i = true ->
  settle_all cfg dust tasks (Settles i :: rest) (Awaiting 1)
  = Log AllProcessed :: job_lines cfg dust tasks rest.
Proof.
  intros Hi Hacc.
  destruct (nth_error tasks i) as [issue|] eqn:E;
    [|apply nth_error_None in E; unfold N in Hi; lia].
  cbn [settle_all]. rewrite E.
  unfold accepts in Hacc. rewrite E in Hacc.
  unfold upsertToDustDatasource. rewrite Hacc.
  cbn [fst promise_all_step app]. now rewrite settle_all_resumed.
Qed.

(** With at least one job, [main] suspends on all of them. *)
Lemma deliver_awaiting (steps : list Step) :
  0 < N ->
  deliver cfg dust tasks steps
  = settle_all cfg dust tasks steps (Awaiting N).
Proof.
  unfold deliver, N. destruct (List.length tasks); [lia | reflexivity].
Qed.

End Delivery.

Section DeliverShapes.

Variable cfg : Config.
Variable dust : Dust.
Variable tasks : list JiraIssue.
Variable steps : list Step.

(** A promise settles at most once, and only the promises of scheduled
    jobs are awaited. *)
Hypothesis settles_once : NoDup (settles_of steps).
Hypothesis settles_scheduled :
  forall i, In i (settles_of steps) -> i < List.length tasks.

Lemma settles_before_are_fewer (pre post : list Step) (i : nat) :
  steps = (pre ++ Settles i :: post)%list ->
  List.length (settles_of pre) < List.length tasks.
Proof.
  intros Ho.
  pose proof (NoDup_below_length _ _ settles_once settles_scheduled) as H.
  rewrite Ho, settles_of_app, length_app in H. cbn in H. lia.
Qed.

Lemma settles_in_steps (pre post : list Step) (i : nat) :
  steps = (pre ++ Settles i :: post)%list ->
  In i (settles_of steps)
  /\ forall j, In j (settles_of pre) -> In j (settles_of steps).
Proof.
  intros ->. rewrite settles_of_app. split.
  - apply in_or_app. right. now left.
  - intros j Hj. apply in_or_app. now left.
Qed.

(** When the promise of a rejected job settles after fulfilled ones
    only, the [catch] line is printed at that step. *)
Lemma deliver_first_rejected (pre post : list Step) (i : nat) :
  steps = (pre ++ Settles i :: post)%list ->
  (forall j, In j (settles_of pre) -> accepts cfg dust tasks j = true) ->
  accepts cfg dust tasks i = false ->
  deliver cfg dust tasks steps
  = (job_lines cfg dust tasks pre
       ++ Log AnErrorOccurred :: job_lines cfg dust tasks post)%list.
Proof.
  intros Ho Hpre Hrej.
  pose proof (settles_before_are_fewer pre post i Ho) as Hlt.
  destruct (settles_in_steps pre post i Ho) as [Hi Hsub].
  rewrite deliver_awaiting by lia. rewrite Ho.
  rewrite settle_all_accepted_prefix.
  - rewrite settle_all_rejected; [reflexivity| |exact Hrej].
    apply settles_scheduled, Hi.
  - intros j Hj. split; [apply settles_scheduled, Hsub, Hj | now apply Hpre].
  - lia.
Qed.

(** When every promise is fulfilled, the success line is printed at the
    step where the last of them settles. *)
Lemma deliver_all_accepted (pre post : list Step) (i : nat) :
  steps = (pre ++ Settles i :: post)%list ->
  (forall j, In j (settles_of steps) -> accepts cfg dust tasks j = true) ->
  List.length (settles_of pre) + 1 = List.length tasks ->
  deliver cfg dust tasks steps
  = (job_lines cfg dust tasks pre
       ++ Log AllProcessed :: job_lines cfg dust tasks post)%list.
Proof.
  intros Ho Hacc Hlen.
  destruct (settles_in_steps pre post i Ho) as [Hi Hsub].
  rewrite deliver_awaiting by lia. rewrite Ho.
  rewrite settle_all_accepted_prefix.
  - replace (List.length tasks - List.length (settles_of pre)) with 1 by lia.
    rewrite settle_all_last; [reflexivity | |now apply Hacc].
    apply settles_scheduled, Hi.
  - intros j Hj. split; [apply settles_scheduled | apply Hacc]; now apply Hsub.
  - lia.
Qed.


End DeliverShapes.




(* ================================================================== *)
(** * Further properties of the formatter *)

Lemma lines_of_single_lines (xs : list string) :
  Forall (fun x => has_LF x = false) xs -> flat_map lines xs = xs.
Proof.
  induction 1 as [|x xs Hx _ IH]; [reflexivity|].
  cbn [flat_map]. now rewrite (lines_no_LF x Hx), IH.
Qed.

(** X1. [formatDescription] prints one line per paragraph, in order, a
    paragraph without content as an empty line; an absent description
    and a description without paragraphs both give the empty string. *)
Theorem description_one_line_per_paragraph
    (paragraphs : list (option (list string))) :
  paragraphs <> [] ->
  Forall (fun c => has_LF (paragraph_text c) = false) paragraphs ->
  lines (formatDescription (Some paragraphs)) = map paragraph_text paragraphs
  /\ formatDescription None = ""
  /\ formatDescription (Some []) = "".
Proof.
  intros Hne Hlf. split; [|split; reflexivity].
  unfold formatDescription. fold paragraph_text.
  change (fun c : option (list string) =>
            match c with Some runs => join "" runs | None => "" end)
    with paragraph_text.
  rewrite lines_join by (destruct paragraphs; [contradiction | discriminate]).
  apply lines_of_single_lines. now apply Forall_map.
Qed.

(** A description with a paragraph of two runs, one without content and
    one of a single run. *)
Lemma description_one_line_per_paragraph_witness :
  lines (formatDescription (Some [Some ["Steps to "; "reproduce"]; None;
                                   Some ["Open the app"]]))
  = ["Steps to reproduce"; ""; "Open the app"].
Proof.
  apply (description_one_line_per_paragraph
           [Some ["Steps to "; "reproduce"]; None; Some ["Open the app"]]).
  - discriminate.
  - repeat constructor.
Defined.

Lemma formatLink_linked (link : IssueLink) :
  has_linked_issue link = true -> String.eqb (formatLink link) "" = false.
Proof.
  unfold has_linked_issue, formatLink. intros H.
  destruct (inwardIssue link) as [i|]; [|destruct (outwardIssue link) as [o|]];
    try discriminate;
    (destruct (linktype_name (link_type link)); reflexivity).
Qed.

Lemma formatLink_unlinked (link : IssueLink) :
  has_linked_issue link = false -> formatLink link = "".
Proof.
  unfold has_linked_issue, formatLink.
  destruct (inwardIssue link); [discriminate|].
  destruct (outwardIssue link); [discriminate | reflexivity].
Qed.

(** X2. The [Issue Links] line lists exactly the links that carry an
    inward or an outward issue, in their order; a link with neither is
    left out, and a link with both is printed with its inward issue. *)
Theorem issue_links_keep_the_linked_ones (issue : JiraIssue) :
  let links := issuelinks (fields issue) in
  filterBoolean (map formatLink links)
  = map formatLink (filter has_linked_issue links)
  /\ In ("Issue Links: "
          ++ join ", " (map formatLink (filter has_linked_issue links)))
        (template_head issue)
  /\ (forall link i,
        inwardIssue link = Some i ->
        formatLink link
        = linktype_name (link_type link) ++ " " ++ ref_key i ++ ": "
            ++ ref_summary i).
Proof.
  intros links.
  assert (Hf : filterBoolean (map formatLink links)
               = map formatLink (filter has_linked_issue links)).
  { unfold filterBoolean. generalize links. clear links.
    induction links as [|l links IH]; [reflexivity|].
    cbn [map filter]. destruct (has_linked_issue l) eqn:E.
    - rewrite (formatLink_linked l E). cbn [negb map]. now rewrite IH.
    - rewrite (formatLink_unlinked l E). cbn [String.eqb negb]. exact IH. }
  split; [exact Hf|]. split.
  - rewrite <- Hf. unfold template_head, links. cbv zeta.
    repeat (first [ left; reflexivity | right ]).
  - intros link i H. unfold formatLink. now rewrite H.
Qed.

(** A link that carries both issues. *)
Lemma issue_links_keep_the_linked_ones_witness :
  formatLink
    {| link_type := {| linktype_name := "Blocks"; inward := "is blocked by";
                       outward := "blocks" |};
       inwardIssue := Some {| ref_key := "A-1"; ref_summary := "in" |};
       outwardIssue := Some {| ref_key := "B-2"; ref_summary := "out" |} |}
  = "Blocks A-1: in".
Proof.
  destruct (issue_links_keep_the_linked_ones (bare_issue "PRJ-1"))
    as (_ & _ & H).
  exact (H {| link_type := {| linktype_name := "Blocks";
                              inward := "is blocked by";
                              outward := "blocks" |};
              inwardIssue := Some {| ref_key := "A-1"; ref_summary := "in" |};
              outwardIssue := Some {| ref_key := "B-2"; ref_summary := "out" |} |}
           {| ref_key := "A-1"; ref_summary := "in" |} eq_refl).
Defined.

Lemma trimEnd_app_blank (a b : string) :
  trimEnd b = "" -> trimEnd (a ++ b) = trimEnd a.
Proof.
  intros Hb. induction a as [|c a IH]; simpl; [exact Hb | now rewrite IH].
Qed.

Lemma trimEnd_ends_nonspace (a : string) (c : ascii) :
  is_space c = false -> trimEnd (a ++ String c "") = a ++ String c "".
Proof.
  intros Hc. rewrite trimEnd_app; rewrite (trimEnd_nonspace c "" Hc);
    [reflexivity | discriminate].
Qed.

(** The document, cut where [trim] may remove something. *)
Lemma content_tail (issue : JiraIssue) :
  content issue
  = join nl (template_head issue ++ ["Comments:"])
      ++ trimEnd (String LF (formatComments (comment (fields issue))
                               ++ String LF "  ")).
Proof.
  set (fc := formatComments (comment (fields issue))).
  set (R := String LF (fc ++ String LF "  ")).
  unfold content, trim, template. fold fc.
  replace ([""] ++ template_head issue ++ ["Comments:"; fc; "  "])%list
    with ("" :: (template_head issue ++ ["Comments:"; fc; "  "]))%list
    by reflexivity.
  rewrite join_cons
    by (intros E; apply app_eq_nil in E as [_ E]; discriminate).
  change ("" ++ nl ++ ?x) with (String LF x).
  cbn [trimStart]. change (is_space LF) with true. cbv iota.
  destruct (template_body_starts issue ["Comments:"; fc; "  "]) as [r Hr].
  rewrite Hr. cbn [trimStart]. change (is_space "I") with false. cbv iota.
  rewrite <- Hr. clear r Hr.
  rewrite !join_app by (try apply template_head_not_nil; discriminate).
  change (join nl ["Comments:"; fc; "  "]) with ("Comments:" ++ R).
  change (join nl ["Comments:"]) with "Comments:".
  assert (HC : trimEnd ("Comments:" ++ R) = "Comments:" ++ trimEnd R).
  { cbn [append]. now rewrite !trimEnd_nonspace by reflexivity. }
  rewrite <- (app_assoc_s (join nl (template_head issue)) nl).
  rewrite trimEnd_app; rewrite HC.
  - now rewrite !app_assoc_s.
  - discriminate.
Qed.

(** X3. The lines of the document are the lines of the template head, in
    the order of the template, then [Comments:], then the comment
    thread: no field position is dropped or moved, and when the key
    holds no line break the first line is [Issue Key:] with the key. *)
Theorem document_lines_in_template_order (issue : JiraIssue) :
  (exists thread,
      lines (content issue)
      = (flat_map lines (template_head issue) ++ "Comments:" :: thread)%list)
  /\ (has_LF (key issue) = false ->
      exists rest, lines (content issue) = ("Issue Key: " ++ key issue) :: rest).
Proof.
  assert (Hl : exists thread,
      lines (content issue)
      = (flat_map lines (template_head issue) ++ "Comments:" :: thread)%list).
  { destruct (content_shape issue) as [t [-> Ht]].
    assert (Hj : lines (join nl (template_head issue ++ ["Comments:"]))
                 = (flat_map lines (template_head issue) ++ ["Comments:"])%list).
    { rewrite lines_join
        by (intros E; apply app_eq_nil in E as [_ E]; discriminate).
      now rewrite flat_map_app. }
    destruct Ht as [-> | [t' ->]].
    - exists []. now rewrite app_empty_r.
    - exists (lines t'). rewrite lines_app_nl, Hj.
      now rewrite <- app_assoc. }
  split; [exact Hl|]. intros Hk. destruct Hl as [thread ->].
  unfold template_head. cbv zeta. cbn [flat_map].
  rewrite (lines_no_LF ("Issue Key: " ++ key issue))
    by (cbn [append has_LF]; exact Hk).
  eexists. reflexivity.
Qed.

(** The record with every optional field absent. *)
Lemma document_lines_in_template_order_witness :
  exists rest, lines (content (bare_issue "PRJ-1")) = "Issue Key: PRJ-1" :: rest.
Proof.
  destruct (document_lines_in_template_order (bare_issue "PRJ-1")) as [_ H].
  exact (H eq_refl).
Defined.

(** X4. For a record without comments the final [trim] removes the
    empty thread and the closing blanks: the document ends with the line
    [Comments:]. *)
Theorem document_without_comments (issue : JiraIssue) :
  comment (fields issue) = [] ->
  content issue = join nl (template_head issue ++ ["Comments:"]).
Proof.
  intros H. rewrite content_tail, H.
  change (trimEnd (String LF (formatComments [] ++ String LF "  "))) with "".
  apply app_empty_r.
Qed.

Lemma document_without_comments_witness :
  content (bare_issue "PRJ-1")
  = join nl (template_head (bare_issue "PRJ-1") ++ ["Comments:"]).
Proof. apply (document_without_comments (bare_issue "PRJ-1")). reflexivity. Defined.

Lemma join_in_split (sep x : string) (xs : list string) :
  In x xs -> exists P Q, join sep xs = P ++ x ++ Q.
Proof.
  induction xs as [|y xs IH]; [contradiction|].
  intros [-> | Hin].
  - destruct xs as [|z xs].
    + exists "", "". cbn. now rewrite app_empty_r.
    + exists "", (sep ++ join sep (z :: xs)). now rewrite join_cons.
  - destruct (IH Hin) as (P & Q & E).
    destruct xs as [|z xs]; [contradiction|].
    exists (y ++ sep ++ P), Q.
    rewrite join_cons by discriminate. rewrite E.
    now rewrite !app_assoc_s.
Qed.

Lemma trimEnd_of_line_break (b : string) :
  trimEnd (String LF b) = "" \/ exists t', trimEnd (String LF b) = String LF t'.
Proof.
  destruct (trimEnd_prefix (String LF b)) as [ws E].
  destruct (trimEnd (String LF b)) as [|c t']; [now left | right].
  exists t'. simpl in E. now inversion E.
Qed.

(** A line that ends with a visible character survives [trimEnd]. *)
Lemma trimEnd_keeps_line (a l b : string) (c : ascii) :
  has_LF (l ++ String c "") = false -> is_space c = false ->
  In (l ++ String c "")
     (lines (trimEnd (a ++ String LF ((l ++ String c "") ++ String LF b)))).
Proof.
  intros Hlf Hc.
  replace (a ++ String LF ((l ++ String c "") ++ String LF b))
    with (((a ++ String LF l) ++ String c "") ++ String LF b)
    by (rewrite !app_assoc_s; reflexivity).
  destruct (trimEnd_of_line_break b) as [E | [t' E]].
  - rewrite trimEnd_app_blank by exact E.
    rewrite trimEnd_ends_nonspace by exact Hc.
    rewrite !app_assoc_s. cbn [append]. rewrite lines_app_nl.
    apply in_or_app. right. rewrite (lines_no_LF _ Hlf). now left.
  - rewrite trimEnd_app by (rewrite E; discriminate). rewrite E.
    rewrite !app_assoc_s. cbn [append].
    rewrite lines_app_nl. apply in_or_app. right.
    replace (l ++ String c (String LF t'))
      with ((l ++ String c "") ++ String LF t')
      by (rewrite app_assoc_s; reflexivity).
    rewrite lines_app_nl, (lines_no_LF _ Hlf). now left.
Qed.

Lemma author_line_ends_visibly (c : Comment) :
  exists l, author_line c = l ++ String ")" "".
Proof.
  unfold author_line.
  exists ("[" ++ comment_created c ++ "] Author: "
            ++ displayName (comment_author c)
            ++ " (" ++ emailAddress (comment_author c)).
  now rewrite !app_assoc_s.
Qed.

(** X5. Every comment of the record is in the document: the line
    [[created] Author: name (email)] of each comment is a line of the
    document, also for the last comment, which the final [trim] leaves
    whole. *)
Theorem every_comment_has_its_author_line (issue : JiraIssue) (c : Comment) :
  In c (comment (fields issue)) ->
  has_LF (author_line c) = false ->
  has_line (author_line c) (content issue).
Proof.
  intros Hin Hlf. unfold has_line. rewrite content_tail.
  destruct (author_line_ends_visibly c) as [l El].
  assert (Hne : author_line c <> "")
    by (rewrite El; destruct l; discriminate).
  destruct (join_in_split nl (formatComment c)
              (map formatComment (comment (fields issue)))
              (in_map formatComment _ _ Hin)) as (P & Q & E).
  set (body := join nl (map (join "") (comment_body c))).
  assert (Hfc : formatComment c
                = String LF (author_line c ++ String LF (body ++ nl)))
    by reflexivity.
  set (R := String LF (formatComments (comment (fields issue))
                         ++ String LF "  ")).
  assert (HR : R = String LF P
                     ++ String LF (author_line c
                                     ++ String LF ((body ++ nl) ++ Q
                                                     ++ String LF "  "))).
  { unfold R, formatComments. rewrite E, Hfc.
    repeat (progress (rewrite ?app_assoc_s; cbn [append])).
    reflexivity. }
  assert (Hin' : In (author_line c) (lines (trimEnd R))).
  { rewrite HR, El. apply trimEnd_keeps_line; [|reflexivity].
    now rewrite <- El. }
  destruct (trimEnd_of_line_break
              (formatComments (comment (fields issue)) ++ String LF "  "))
    as [E0 | [t' E0]]; fold R in E0; rewrite E0 in *.
  - cbn in Hin'. destruct Hin' as [Hin' | []]. now symmetry in Hin'.
  - rewrite lines_app_nl. apply in_or_app. right.
    cbn [lines] in Hin'. change (Ascii.eqb LF LF) with true in Hin'.
    cbv iota in Hin'. destruct Hin' as [Hin' | Hin']; [|exact Hin'].
    now symmetry in Hin'.
Qed.

(** A record with two comments, looked up for the last one. *)
Lemma every_comment_has_its_author_line_witness :
  let c1 := {| comment_author := alice; comment_created := "2024-01-03";
               comment_body := [["First"]] |} in
  let c2 := {| comment_author := alice; comment_created := "2024-01-04";
               comment_body := [] |} in
  has_line "[2024-01-04] Author: Alice (alice@example.com)"
    (content (with_comments [c1; c2] (bare_issue "PRJ-1"))).
Proof.
  cbv zeta.
  apply (every_comment_has_its_author_line
           (with_comments _ (bare_issue "PRJ-1"))
           {| comment_author := alice; comment_created := "2024-01-04";
              comment_body := [] |}).
  - right. now left.
  - reflexivity.
Defined.

Lemma append_cancel_l (a x y : string) : a ++ x = a ++ y -> x = y.
Proof.
  induction a as [|c a IH]; cbn; intros H; [exact H|].
  inversion H. now apply IH.
Qed.

(** X6. The path string that [upsertToDustDatasource] hands to
    [dustApi.post] is built from the record key as it is, without any
    encoding, and two records get the same path string exactly when
    they have the same key.  What axios makes of the string (a [#] or a
    [?] in a key, say) is its own affair and not part of the
    statement. *)
Theorem upsert_path_determines_key (cfg : Config) (a b : JiraIssue) :
  document_path cfg (documentId a) = document_path cfg (documentId b) <->
  key a = key b.
Proof.
  split.
  - unfold document_path, documentId. intros H.
    repeat (apply append_cancel_l in H). exact H.
  - intros H. unfold documentId. now rewrite H.
Qed.

(** Two sample records with the keys [K-0] and [K-1]. *)
Lemma upsert_path_determines_key_witness :
  document_path sample_config (documentId (bare_issue "K-0"))
  <> document_path sample_config (documentId (bare_issue "K-1")).
Proof.
  intros H.
  apply (upsert_path_determines_key sample_config) in H. discriminate.
Defined.

(* ================================================================== *)
(** * Further properties of the fetcher *)

Lemma clock_backoffs (s : Z) (hdrs : list (option string)) :
  forall w, clock (backoffs s hdrs w) = clock w + List.length hdrs.
Proof.
  induction hdrs as [|h hdrs IH]; intros w; cbn [backoffs fold_left List.length].
  - lia.
  - fold (backoffs s hdrs (backed_off s h w)). rewrite IH.
    rewrite clock_backed_off. lia.
Qed.

Lemma offsets_backoffs (s : Z) (hdrs : list (option string)) :
  forall w,
    offsets (trace (backoffs s hdrs w))
    = (offsets (trace w) ++ repeat s (List.length hdrs))%list.
Proof.
  induction hdrs as [|h hdrs IH]; intros w; cbn [backoffs fold_left List.length].
  - cbn. now rewrite app_nil_r.
  - fold (backoffs s hdrs (backed_off s h w)). rewrite IH.
    unfold backed_off, emit, posted. cbn [trace]. rewrite !offsets_app.
    cbn [offsets flat_map page_request req_startAt app repeat].
    now rewrite !app_nil_r, <- app_assoc.
Qed.

(** Every run of [makeRequest]: some 429 answers, at most [3 - rc] of
    them, each followed by a back-off, then the answer it returns. *)
Lemma makeRequest_runs (srv : Server) (s : Z) (n : nat) :
  forall (rc : nat) (w : World),
    rc <= 3 -> 3 - rc < n ->
    exists hdrs,
      rc + List.length hdrs <= 3
      /\ (forall i h, nth_error hdrs i = Some h ->
            srv (clock w + i) (page_request s)
            = Rejected (AxiosResponseError 429 h))
      /\ (rc + List.length hdrs = 3
          \/ retry_header (srv (clock w + List.length hdrs) (page_request s))
             = None)
      /\ makeRequest srv s rc w
         = (srv (clock w + List.length hdrs) (page_request s),
            posted s (backoffs s hdrs w)).
Proof.
  induction n as [|n IH]; intros rc w Hrc Hn; [lia|].
  destruct (srv (clock w) (page_request s)) as [d | e] eqn:E.
  - exists []. cbn [List.length]. rewrite !Nat.add_0_r, E.
    repeat split; [lia | intros [|i] h Hi; discriminate | now right |].
    now apply makeRequest_fulfilled.
  - destruct (rate_limited e) as [hdr|] eqn:Er.
    + destruct (lt_dec rc 3) as [Hlt | Hge].
      * destruct (IH (S rc) (backed_off s hdr w) ltac:(lia) ltac:(lia))
          as (hdrs & Hlen & H429 & Hstop & Hrun).
        rewrite clock_backed_off in *.
        exists (hdr :: hdrs). cbn [List.length].
        replace (clock w + S (List.length hdrs))
          with (S (clock w) + List.length hdrs) by lia.
        repeat split.
        -- lia.
        -- intros [|i] h Hi.
           ++ cbn in Hi. inversion Hi; subst. rewrite Nat.add_0_r, E.
              destruct e as [st hdr'| |]; try discriminate.
              cbn in Er. destruct (Z.eqb_spec st 429); [|discriminate].
              inversion Er; subst. reflexivity.
           ++ replace (clock w + S i) with (S (clock w) + i) by lia.
              now apply H429.
        -- destruct Hstop as [Hs | Hs]; [left; lia | now right].
        -- rewrite (makeRequest_retry srv s rc w e hdr E Er Hlt). exact Hrun.
      * exists []. cbn [List.length]. rewrite !Nat.add_0_r, E.
        repeat split; [lia | intros [|i] h Hi; discriminate | left; lia |].
        apply makeRequest_exhausted; [exact E | lia].
    + exists []. cbn [List.length]. rewrite !Nat.add_0_r, E.
      repeat split; [lia | intros [|i] h Hi; discriminate | now right |].
      now apply makeRequest_not_429.
Qed.

(** X7. Whatever the server answers, one call of [makeRequest] sends at
    least one and at most four requests, all for the same page; every
    request but the last was answered by a 429 and is followed by one
    sleep; the call returns the answer to its last request, which is a
    429 only when it was the fourth. *)
Theorem makeRequest_sends_at_most_four (srv : Server) (s : Z) (w : World) :
  exists hdrs,
    List.length hdrs <= 3
    /\ makeRequest srv s 0 w
       = (srv (clock w + List.length hdrs) (page_request s),
          posted s (backoffs s hdrs w))
    /\ (forall i h, nth_error hdrs i = Some h ->
          srv (clock w + i) (page_request s)
          = Rejected (AxiosResponseError 429 h))
    /\ (retry_header (srv (clock w + List.length hdrs) (page_request s))
        <> None -> List.length hdrs = 3)
    /\ offsets (trace (snd (makeRequest srv s 0 w)))
       = (offsets (trace w) ++ repeat s (S (List.length hdrs)))%list
    /\ clock (snd (makeRequest srv s 0 w))
       = clock w + S (List.length hdrs).
Proof.
  destruct (makeRequest_runs srv s 4 0 w ltac:(lia) ltac:(lia))
    as (hdrs & Hlen & H429 & Hstop & Hrun).
  exists hdrs. rewrite Hrun. cbn [snd].
  repeat split.
  - lia.
  - exact H429.
  - intros Hne. destruct Hstop as [Hs | Hs]; [lia | contradiction].
  - unfold posted. cbn [trace]. rewrite offsets_app, offsets_backoffs.
    cbn [offsets flat_map page_request req_startAt app].
    rewrite <- app_assoc. f_equal.
    change [s] with (repeat s 1). rewrite <- repeat_app.
    f_equal. lia.
  - unfold posted. cbn [clock]. rewrite clock_backoffs. lia.
Qed.

(** A Jira that answers 429 to everything: four requests at offset 50. *)
Lemma makeRequest_sends_at_most_four_witness :
  exists hdrs : list (option string),
    List.length hdrs = 3
    /\ offsets (trace (snd (makeRequest (always_429 None) 50 0 world0)))
       = repeat 50%Z (S (List.length hdrs)).
Proof.
  destruct (makeRequest_sends_at_most_four (always_429 None) 50 world0)
    as (hdrs & _ & _ & _ & Hstop & Hoff & _).
  exists hdrs. split; [|exact Hoff].
  apply Hstop. discriminate.
Defined.

Lemma offsets_posted_backoffs (s : Z) (hdrs : list (option string))
    (w : World) :
  offsets (trace (posted s (backoffs s hdrs w)))
  = (offsets (trace w) ++ repeat s (S (List.length hdrs)))%list
  /\ clock (posted s (backoffs s hdrs w)) = clock w + S (List.length hdrs).
Proof.
  split.
  - unfold posted. cbn [trace]. rewrite offsets_app, offsets_backoffs.
    cbn [offsets flat_map page_request req_startAt app].
    rewrite <- app_assoc. f_equal.
    change [s] with (repeat s 1). rewrite <- repeat_app. f_equal. lia.
  - unfold posted. cbn [clock]. rewrite clock_backoffs. lia.
Qed.

Lemma page_runs_length_single (k c : nat) :
  List.length (page_runs k [c]) = c.
Proof. cbn. now rewrite app_nil_r, repeat_length. Qed.

(** The page requests of the loop from the state of page [k] on. *)
Lemma fetch_loop_page_runs (srv : Server) (fuel : nat) :
  forall (st : FetchState) (w : World) (k : nat) all w',
    startAt st = (maxResults * Z.of_nat k)%Z ->
    fetch_loop fuel srv st w = Some (all, w') ->
    exists counts,
      counts <> []
      /\ Forall (fun c => 1 <= c <= 4) counts
      /\ offsets (trace w') = (offsets (trace w) ++ page_runs k counts)%list
      /\ clock w' = clock w + List.length (page_runs k counts).
Proof.
  induction fuel as [|fuel IH]; intros st w k all w' Hk Hrun; [discriminate|].
  destruct (makeRequest_runs srv (startAt st) 4 0 w ltac:(lia) ltac:(lia))
    as (hdrs & Hlen & _ & _ & Hreq).
  destruct (offsets_posted_backoffs (startAt st) hdrs w) as [Hoff Hclk].
  cbn [fetch_loop] in Hrun. rewrite Hreq in Hrun.
  destruct (srv (clock w + List.length hdrs) (page_request (startAt st)))
    as [d | e].
  - cbv zeta in Hrun.
    destruct (continues (next_state st d)).
    + assert (Hk' : startAt (next_state st d)
                    = (maxResults * Z.of_nat (S k))%Z)
        by (cbn [next_state startAt]; unfold maxResults in *; lia).
      destruct (IH _ _ (S k) _ _ Hk' Hrun)
        as (counts & _ & Hall & Hoffs & Hclks).
      exists (S (List.length hdrs) :: counts).
      split; [discriminate|]. split; [constructor; [lia | exact Hall]|].
      rewrite offsets_emit_log, Hoff in Hoffs.
      cbn [emit clock] in Hclks. rewrite Hclk in Hclks.
      cbn [page_runs]. rewrite <- Hk. split.
      * rewrite Hoffs. now rewrite <- app_assoc.
      * rewrite Hclks, length_app, repeat_length. lia.
    + injection Hrun as <- <-. exists [S (List.length hdrs)].
      split; [discriminate|]. split; [constructor; [lia | constructor]|].
      rewrite offsets_emit_log, Hoff. cbn [emit clock]. rewrite Hclk.
      rewrite page_runs_length_single. cbn [page_runs].
      now rewrite app_nil_r, <- Hk.
  - injection Hrun as <- <-. exists [S (List.length hdrs)].
    split; [discriminate|]. split; [constructor; [lia | constructor]|].
    rewrite offsets_emit_log, Hoff. cbn [emit clock]. rewrite Hclk.
    rewrite page_runs_length_single. cbn [page_runs].
    now rewrite app_nil_r, <- Hk.
Qed.

(** X8. In every run of the fetcher that returns, whatever the server
    answers, the page requests go through the offsets 0, 50, 100, ... in
    that order without skipping or going back: each offset is requested
    at least once and at most four times in a row before the next one. *)
Theorem fetch_offsets_advance_page_by_page (fuel : nat) (srv : Server)
    (all : list JiraIssue) (w' : World) :
  getIssuesUpdatedLast24Hours fuel srv world0 = Some (all, w') ->
  exists counts,
    counts <> []
    /\ Forall (fun c => 1 <= c <= 4) counts
    /\ offsets (trace w') = page_runs 0 counts
    /\ clock w' = List.length (offsets (trace w')).
Proof.
  unfold getIssuesUpdatedLast24Hours. intros H.
  destruct (fetch_loop fuel srv fetch_init world0) as [[all0 w0]|] eqn:E;
    [|discriminate].
  inversion H; subst.
  destruct (fetch_loop_page_runs srv fuel fetch_init world0 0 all w0
              eq_refl E) as (counts & Hne & Hall & Hoff & Hclk).
  exists counts. rewrite offsets_emit_log. cbn [emit clock].
  cbn [world0 trace offsets flat_map app clock] in *.
  repeat split; try assumption. now rewrite Hoff, Hclk.
Qed.

(** A Jira that answers 429 once, then serves 60 records in two
    pages: the offsets requested are 0, 0 and 50. *)
Lemma fetch_offsets_advance_page_by_page_witness :
  exists all w' counts,
    getIssuesUpdatedLast24Hours 2
      (fun n req => if Nat.eqb n 0 then Rejected (AxiosResponseError 429 None)
                    else paged_server (sample_issues 60) n req) world0
    = Some (all, w')
    /\ offsets (trace w') = page_runs 0 counts
    /\ offsets (trace w') = [0; 0; 50]%Z
    /\ List.length all = 60.
Proof.
  destruct (getIssuesUpdatedLast24Hours 2
      (fun n req => if Nat.eqb n 0 then Rejected (AxiosResponseError 429 None)
                    else paged_server (sample_issues 60) n req) world0)
    as [[all w']|] eqn:E; [|vm_compute in E; discriminate].
  destruct (fetch_offsets_advance_page_by_page _ _ _ _ E)
    as (counts & _ & _ & Hoff & _).
  exists all, w', counts. split; [reflexivity|]. split; [exact Hoff|].
  vm_compute in E. inversion E. split; reflexivity.
Defined.

Section CappedServer.

Variable cap : nat.
Variable data : list JiraIssue.

Hypothesis cap_below_page : cap < 50.
Hypothesis more_than_a_page : cap < List.length data.

(** After [k] short pages the loop holds fewer records than the
    positions it has walked over, and it keeps going. *)
Lemma capped_loop_runs_forever (fuel : nat) :
  forall (st : FetchState) (w : World) (k : nat),
    startAt st = (maxResults * Z.of_nat k)%Z ->
    (k = 0 /\ allIssues st = []
     \/ 1 <= k
        /\ List.length (allIssues st) + 1
           <= Nat.min (List.length data) (50 * k)) ->
    fetch_loop fuel (capped_server cap data) st w = None.
Proof.
  induction fuel as [|fuel IH]; intros st w k Hk Hinv; [reflexivity|].
  rewrite (fetch_loop_fulfilled _ fuel st w _ _
             (makeRequest_fulfilled _ _ _ _ _ eq_refl)).
  cbv zeta.
  set (d := {| issues := _; total := _ |}).
  assert (Hlen : List.length (issues d)
                 = Nat.min cap (List.length data - 50 * k)).
  { unfold d. cbn [issues page_request req_maxResults req_startAt].
    rewrite length_firstn, length_skipn, Hk.
    change (Z.to_nat maxResults) with 50.
    replace (Z.to_nat (maxResults * Z.of_nat k)) with (50 * k)
      by (unfold maxResults; lia).
    lia. }
  assert (Hnext : List.length (allIssues (next_state st d)) + 1
                  <= Nat.min (List.length data) (50 * S k)).
  { cbn [next_state allIssues]. rewrite length_app, Hlen.
    destruct Hinv as [[-> ->] | [Hk1 Hacc]]; cbn [List.length]; lia. }
  replace (continues (next_state st d)) with true.
  - apply (IH _ _ (S k)).
    + cbn [next_state startAt]. unfold maxResults in *. lia.
    + right. split; [lia | exact Hnext].
  - symmetry. unfold continues. apply Z.ltb_lt.
    change (total_seen (next_state st d)) with (Z.of_nat (List.length data)).
    lia.
Qed.

End CappedServer.

(** X9. The offset moves by 50 after every page, whatever the page
    held.  Against a Jira that holds more records than it returns per
    page and returns fewer than 50 per page, the records between the end
    of a page and the next multiple of 50 are never requested, the
    accumulated count never reaches the total, and the fetcher never
    returns. *)
Theorem short_pages_never_finish (cap : nat) (data : list JiraIssue) :
  cap < 50 -> cap < List.length data ->
  forall fuel,
    getIssuesUpdatedLast24Hours fuel (capped_server cap data) world0 = None.
Proof.
  intros Hcap Hdata fuel. unfold getIssuesUpdatedLast24Hours.
  rewrite (capped_loop_runs_forever cap data Hcap Hdata fuel
             fetch_init world0 0 eq_refl); [reflexivity|].
  left. split; reflexivity.
Qed.

(** Sixty records served twenty-five at a time. *)
Lemma short_pages_never_finish_witness :
  getIssuesUpdatedLast24Hours 1000 (capped_server 25 (sample_issues 60)) world0
  = None.
Proof.
  apply (short_pages_never_finish 25 (sample_issues 60)).
  - lia.
  - vm_compute. lia.
Defined.

Lemma fetch_failed_app (a b : list Event) :
  fetch_failed (a ++ b) = (fetch_failed a || fetch_failed b)%bool.
Proof. apply existsb_app. Qed.

Section FailingAfter.

Variable k : nat.
Variable data : list JiraIssue.
Variable e : Error.

Hypothesis not_a_429 : rate_limited e = None.
Hypothesis still_fetching : k = 0 \/ 50 * k < List.length data.

(** From page [i] the loop fetches the [j] pages that are served, then
    meets the failure and hands back what it holds. *)
Lemma failing_loop (j : nat) :
  forall (i fuel : nat) (w : World) (tot : Z),
    clock w = i -> i + j = k -> j < fuel ->
    exists w',
      fetch_loop fuel (failing_after k data e) (after_pages data i tot) w
      = Some (firstn (50 * k) data, w')
      /\ offsets (trace w')
         = (offsets (trace w)
              ++ map (fun p => (maxResults * Z.of_nat p)%Z) (seq i (S j)))%list
      /\ fetch_failed (trace w') = true.
Proof.
  induction j as [|j IH]; intros i fuel w tot Hclk Hik Hfuel;
    (destruct fuel as [|fuel]; [lia|]).
  - assert (Hsrv : failing_after k data e (clock w)
                     (page_request (startAt (after_pages data i tot)))
                   = Rejected e).
    { unfold failing_after. rewrite Hclk.
      replace (Nat.ltb i k) with false by (symmetry; apply Nat.ltb_ge; lia).
      reflexivity. }
    rewrite (fetch_loop_catch _ fuel _ w _ e
               (makeRequest_not_429 _ _ 0 w e Hsrv not_a_429)).
    eexists. split; [|split].
    + cbn [after_pages allIssues]. replace i with k by lia. reflexivity.
    + rewrite offsets_emit_log. unfold posted. cbn [trace].
      rewrite offsets_app.
      cbn [offsets flat_map page_request req_startAt after_pages startAt
           app seq map].
      reflexivity.
    + unfold emit. cbn [trace]. rewrite fetch_failed_app. cbn.
      now rewrite orb_true_r.
  - assert (Hsrv : failing_after k data e (clock w)
                     (page_request (startAt (after_pages data i tot)))
                   = paged_server data (clock w)
                       (page_request (startAt (after_pages data i tot)))).
    { unfold failing_after. rewrite Hclk.
      replace (Nat.ltb i k) with true by (symmetry; apply Nat.ltb_lt; lia).
      reflexivity. }
    rewrite (fetch_loop_fulfilled _ fuel _ w _ _
               (makeRequest_fulfilled _ _ 0 w _ Hsrv)).
    cbv zeta.
    set (d := {| issues := _; total := _ |}).
    assert (Hst : next_state (after_pages data i tot) d
                  = after_pages data (S i) (Z.of_nat (List.length data))).
    { unfold next_state, after_pages, d.
      cbn [allIssues startAt issues total page_request req_startAt
           req_maxResults].
      change (Z.to_nat maxResults) with 50.
      change (startAt (after_pages data i tot))
        with (maxResults * Z.of_nat i)%Z.
      replace (Z.to_nat (maxResults * Z.of_nat i)) with (50 * i)
        by (unfold maxResults; lia).
      rewrite firstn_window. f_equal.
      - f_equal. lia.
      - unfold maxResults. lia. }
    rewrite Hst.
    replace (continues (after_pages data (S i)
                          (Z.of_nat (List.length data)))) with true.
    + destruct (IH (S i) fuel
                  (emit (Log (Retrieved
                     (List.length
                        (allIssues (after_pages data (S i)
                                      (Z.of_nat (List.length data)))))
                     (total_seen (after_pages data (S i)
                                    (Z.of_nat (List.length data))))))
                     (posted (startAt (after_pages data i tot)) w))
                  (Z.of_nat (List.length data)))
        as (w' & Hrun & Hoff & Hfail); [cbn; lia | lia | lia |].
      exists w'. split; [exact Hrun|]. split; [|exact Hfail].
      rewrite Hoff, offsets_emit_log. unfold posted. cbn [trace].
      rewrite offsets_app.
      cbn [offsets flat_map page_request req_startAt after_pages startAt
           app seq map].
      now rewrite <- app_assoc.
    + symmetry. unfold continues, after_pages.
      cbn [allIssues total_seen]. apply Z.ltb_lt.
      rewrite length_firstn. lia.
Qed.

End FailingAfter.

(** X10. Graceful degradation.  Against a Jira that serves [k] full
    pages and then fails with an error that is not a 429, while records
    are still missing, the fetcher sends [k + 1] requests, logs the
    error and returns the first [50 k] records; [main] reports that
    count and goes on to deliver exactly those records. *)
Theorem partial_fetch_is_delivered (k : nat) (data : list JiraIssue)
    (e : Error) (fuel : nat) :
  rate_limited e = None ->
  k = 0 \/ 50 * k < List.length data ->
  k < fuel ->
  exists w',
    getIssuesUpdatedLast24Hours fuel (failing_after k data e) world0
    = Some (firstn (50 * k) data, w')
    /\ offsets (trace w') = page_offsets (S k)
    /\ fetch_failed (trace w') = true
    /\ forall cfg dust steps,
         main fuel cfg (failing_after k data e) dust steps
         = Some (trace w'
                   ++ Log (Found (List.length (firstn (50 * k) data)))
                        :: deliver cfg dust (firstn (50 * k) data) steps)%list.
Proof.
  intros Hnot Hstill Hfuel.
  destruct (failing_loop k data e Hnot Hstill k 0 fuel world0 0%Z
              eq_refl eq_refl Hfuel) as (w0 & Hrun & Hoff & Hfail).
  change (after_pages data 0 0%Z) with fetch_init in Hrun.
  assert (Hget : getIssuesUpdatedLast24Hours fuel (failing_after k data e)
                   world0
                 = Some (firstn (50 * k) data,
                         emit (Log (FinalTotal
                                 (List.length (firstn (50 * k) data)))) w0))
    by (unfold getIssuesUpdatedLast24Hours; now rewrite Hrun).
  eexists. split; [exact Hget|]. split; [|split].
  - rewrite offsets_emit_log, Hoff. reflexivity.
  - unfold emit. cbn [trace]. rewrite fetch_failed_app, Hfail. reflexivity.
  - intros cfg dust steps. unfold main. rewrite Hget.
    unfold emit. cbn [trace]. now rewrite <- !app_assoc.
Qed.

(** 120 records, of which the second page is served and the third is
    answered by an HTTP 500. *)
Lemma partial_fetch_is_delivered_witness :
  exists w',
    getIssuesUpdatedLast24Hours 3
      (failing_after 2 (sample_issues 120) (AxiosResponseError 500 None))
      world0
    = Some (firstn 100 (sample_issues 120), w')
    /\ offsets (trace w') = [0; 50; 100]%Z.
Proof.
  destruct (partial_fetch_is_delivered 2 (sample_issues 120)
              (AxiosResponseError 500 None) 3)
    as (w' & Hget & Hoff & _).
  - reflexivity.
  - right. vm_compute. lia.
  - lia.
  - exists w'. split; [exact Hget | exact Hoff].
Defined.

(** ** The delay before a retry *)

Lemma digits_of_numeral (d : Decimal.uint) :
  forall acc,
    ParseInt.digits acc (NilEmpty.string_of_uint d) = uint_value acc d.
Proof.
  induction d; intros acc; cbn [NilEmpty.string_of_uint uint_value];
    [reflexivity | ..]; cbn [ParseInt.digits];
    match goal with
    | |- context [ParseInt.digit_of ?c] =>
        change (ParseInt.digit_of c) with (Some (Z.of_nat (nat_of_ascii c - 48)))
    end; cbv iota; rewrite IHd; reflexivity.
Qed.

Lemma of_uint_acc_value (d : Decimal.uint) :
  forall acc, Z.pos (Pos.of_uint_acc d acc) = uint_value (Z.pos acc) d.
Proof.
  induction d; intros acc; cbn [Pos.of_uint_acc uint_value];
    [reflexivity | ..]; rewrite IHd; f_equal; lia.
Qed.

Lemma of_uint_value (d : Decimal.uint) : Z.of_uint d = uint_value 0 d.
Proof.
  unfold Z.of_uint.
  induction d; cbn [Pos.of_uint uint_value]; try reflexivity;
    try exact IHd; cbn [Z.of_N]; rewrite of_uint_acc_value; reflexivity.
Qed.

Lemma unsigned_of_numeral (d : Decimal.uint) :
  ParseInt.unsigned (NilZero.string_of_uint d) = Some (Z.of_uint d).
Proof.
  rewrite of_uint_value.
  destruct d; [reflexivity | ..];
    cbn [NilZero.string_of_uint NilEmpty.string_of_uint ParseInt.unsigned];
    match goal with
    | |- context [ParseInt.digit_of ?c] =>
        change (ParseInt.digit_of c) with (Some (Z.of_nat (nat_of_ascii c - 48)))
    end; cbv iota; cbn [ParseInt.digits];
    match goal with
    | |- context [ParseInt.digit_of ?c] =>
        change (ParseInt.digit_of c) with (Some (Z.of_nat (nat_of_ascii c - 48)))
    end; cbv iota; rewrite digits_of_numeral; reflexivity.
Qed.

(** [parseInt] reads back the decimal form of an integer. *)
Lemma parseInt_number_to_string (n : Z) :
  ParseInt.parseInt (number_to_string n) = Some n
  /\ String.eqb (number_to_string n) "" = false.
Proof.
  unfold number_to_string.
  pose proof (DecimalZ.of_to n) as Hn.
  destruct (Z.to_int n) as [d | d]; cbn [Z.of_int] in Hn;
    cbn [NilZero.string_of_int].
  - pose proof (unsigned_of_numeral d) as Hu. rewrite Hn in Hu.
    destruct d; cbn [NilZero.string_of_uint NilEmpty.string_of_uint] in *;
      (split; [|reflexivity]); exact Hu.
  - split; [|reflexivity].
    unfold ParseInt.parseInt. cbn [trimStart].
    change (is_space "-") with false. cbv iota.
    rewrite unsigned_of_numeral. cbn [option_map]. now rewrite Hn.
Qed.

(** What one back-off leaves in the trace, given the delay it read. *)
Lemma backed_off_trace (s : Z) (hdr : option string) (w : World)
    (retryAfter : option Z) :
  ParseInt.parseInt (or_string hdr "60") = retryAfter ->
  trace (backed_off s hdr w)
  = (trace w ++ [Post (page_request s); Log (RateLimited retryAfter);
                 Sleep (option_map (Z.mul 1000) retryAfter)])%list.
Proof.
  intros <-. unfold backed_off, emit, posted. cbn [trace].
  now rewrite <- !app_assoc.
Qed.

(** X11. Before a retry the script calls [setTimeout] with 1000 times
    the [retry-after] header read as seconds.  A header that is the
    decimal form of an integer [n] from 1 on, with [1000 n] at most
    [TIMEOUT_MAX] (the delays a Node timer takes as given), makes the
    call [setTimeout(resolve, 1000 n)] after the line that announces
    [n] seconds; an absent or empty header makes it
    [setTimeout(resolve, 60000)]. *)
Theorem retry_waits_the_advised_seconds (s : Z) (w : World) :
  (forall n,
      (1 <= n)%Z -> (1000 * n <= TIMEOUT_MAX)%Z ->
      trace (backed_off s (Some (number_to_string n)) w)
      = (trace w ++ [Post (page_request s); Log (RateLimited (Some n));
                     Sleep (Some (1000 * n)%Z)])%list)
  /\ (forall hdr,
        hdr = None \/ hdr = Some "" ->
        trace (backed_off s hdr w)
        = (trace w ++ [Post (page_request s);
                       Log (RateLimited (Some 60%Z));
                       Sleep (Some 60000%Z)])%list).
Proof.
  split.
  - intros n _ _. destruct (parseInt_number_to_string n) as [Hp Hne].
    apply (backed_off_trace s _ w (Some n)).
    unfold or_string. now rewrite Hne.
  - intros hdr [-> | ->]; now apply (backed_off_trace s _ w (Some 60%Z)).
Qed.

(** A header of 120 seconds, and no header. *)
Lemma retry_waits_the_advised_seconds_witness :
  trace (backed_off 50 (Some "120") world0)
  = [Post (page_request 50); Log (RateLimited (Some 120%Z));
     Sleep (Some 120000%Z)]
  /\ trace (backed_off 50 None world0)
     = [Post (page_request 50); Log (RateLimited (Some 60%Z));
        Sleep (Some 60000%Z)].
Proof.
  destruct (retry_waits_the_advised_seconds 50 world0) as [Hn Hd].
  split.
  - apply (Hn 120%Z); unfold TIMEOUT_MAX; lia.
  - apply Hd. now left.
Defined.

Lemma parseInt_unfold (s : string) :
  ParseInt.parseInt s
  = match trimStart s with
    | EmptyString => None
    | String c s' =>
        if Ascii.eqb c "-" then option_map Z.opp (ParseInt.unsigned s')
        else if Ascii.eqb c "+" then ParseInt.unsigned s'
        else ParseInt.unsigned (String c s')
    end.
Proof.
  unfold ParseInt.parseInt. destruct (trimStart s) as [|c s']; [reflexivity|].
  destruct c as [[|] [|] [|] [|] [|] [|] [|] [|]]; reflexivity.
Qed.

(** X12. A [retry-after] header that does not start, after leading
    white space, with a digit or a sign (the HTTP-date form, for
    instance) is read as NaN: the log line and the delay are NaN, so the
    retry does not wait for the time the server asked for. *)
Theorem retry_after_date_is_not_a_number (s : Z) (w : World)
    (hdr rest : string) (c : ascii) :
  trimStart hdr = String c rest ->
  ParseInt.digit_of c = None ->
  c <> "-"%char -> c <> "+"%char ->
  trace (backed_off s (Some hdr) w)
  = (trace w ++ [Post (page_request s); Log (RateLimited None);
                 Sleep None])%list.
Proof.
  intros Ht Hd Hminus Hplus.
  apply (backed_off_trace s (Some hdr) w None).
  assert (Hne : String.eqb hdr "" = false)
    by (destruct hdr; [discriminate | reflexivity]).
  unfold or_string. rewrite Hne, parseInt_unfold, Ht.
  apply Ascii.eqb_neq in Hminus, Hplus. rewrite Hminus, Hplus.
  cbn [ParseInt.unsigned]. now rewrite Hd.
Qed.

(** The HTTP-date form of the header. *)
Lemma retry_after_date_is_not_a_number_witness :
  trace (backed_off 0 (Some "Wed, 21 Oct 2015 07:28:00 GMT") world0)
  = [Post (page_request 0); Log (RateLimited None); Sleep None].
Proof.
  apply (retry_after_date_is_not_a_number 0 world0
           "Wed, 21 Oct 2015 07:28:00 GMT" "ed, 21 Oct 2015 07:28:00 GMT" "W");
    [reflexivity | reflexivity | discriminate | discriminate].
Defined.

(* ================================================================== *)
(** * Further properties of the delivery stage *)

Lemma first_rejected (P : nat -> bool) (l : list nat) :
  (forall i, In i l -> P i = true)
  \/ exists before i after,
       l = (before ++ i :: after)%list
       /\ (forall j, In j before -> P j = true)
       /\ P i = false.
Proof.
  induction l as [|x l IH].
  - left. intros i [].
  - destruct (P x) eqn:Px.
    + destruct IH as [Hall | (before & i & after & -> & Hb & Hi)].
      * left. intros i [<- | Hi]; auto.
      * right. exists (x :: before), i, after.
        repeat split; [|exact Hi]. intros j [<- | Hj]; auto.
    + right. exists [], x, l. repeat split; [|exact Px]. intros j [].
Qed.

Section EveryPromiseSettles.

Variable tasks : list JiraIssue.
Variable steps : list Step.

Hypothesis every_promise_settles :
  Permutation (settles_of steps) (seq 0 (List.length tasks)).

Lemma settles_NoDup : NoDup (settles_of steps).
Proof.
  apply (Permutation_NoDup (Permutation_sym every_promise_settles)).
  apply seq_NoDup.
Qed.

Lemma settles_in_range (i : nat) :
  In i (settles_of steps) -> i < List.length tasks.
Proof.
  intros Hi.
  apply (Permutation_in _ every_promise_settles), in_seq in Hi. lia.
Qed.

Lemma settles_complete (i : nat) :
  i < List.length tasks -> In i (settles_of steps).
Proof.
  intros Hi.
  apply (Permutation_in _ (Permutation_sym every_promise_settles)), in_seq.
  lia.
Qed.

Lemma settles_length :
  List.length (settles_of steps) = List.length tasks.
Proof.
  rewrite (Permutation_length every_promise_settles). apply length_seq.
Qed.

(** With at least one job, some step settles the last promise. *)
Lemma last_settle :
  0 < List.length tasks ->
  exists pre i post,
    steps = (pre ++ Settles i :: post)%list
    /\ List.length (settles_of pre) + 1 = List.length tasks.
Proof.
  intros Hpos. pose proof settles_length as Hlen.
  destruct (exists_last (l := settles_of steps)) as (before & i & Hs).
  - intros E. rewrite E in Hlen. cbn in Hlen. lia.
  - destruct (settles_split steps before i [] Hs)
      as (pre & post & Ho & Hpre & _).
    exists pre, i, post. split; [exact Ho|].
    rewrite Hpre, <- Hlen, Hs, length_app. reflexivity.
Qed.

End EveryPromiseSettles.

(** X13. Whatever Dust answers and in whatever order the jobs finish
    and their promises settle, once every promise has settled the
    delivery stage has printed exactly one closing line: the success
    line when every upsert was accepted, the [catch] line when at least
    one was rejected; several rejections still give a single [catch]
    line. *)
Theorem delivery_prints_one_closing_line (cfg : Config) (dust : Dust)
    (tasks : list JiraIssue) (steps : list Step) :
  Permutation (settles_of steps) (seq 0 (List.length tasks)) ->
  let tr := deliver cfg dust tasks steps in
  (filter is_main_end tr = [Log AllProcessed]
   \/ filter is_main_end tr = [Log AnErrorOccurred])
  /\ (run_failed tr = false <->
      forall i, i < List.length tasks -> accepts cfg dust tasks i = true)
  /\ (In (Log AllProcessed) tr <-> run_failed tr = false).
Proof.
  intros Hperm tr.
  pose proof (settles_NoDup tasks steps Hperm) as Hnd.
  pose proof (settles_in_range tasks steps Hperm) as Hin.
  assert (Hcases :
    (forall i, i < List.length tasks -> accepts cfg dust tasks i = true)
    /\ filter is_main_end tr = [Log AllProcessed]
    /\ run_failed tr = false /\ In (Log AllProcessed) tr
    \/ (exists i, i < List.length tasks /\ accepts cfg dust tasks i = false)
       /\ filter is_main_end tr = [Log AnErrorOccurred]
       /\ run_failed tr = true /\ ~ In (Log AllProcessed) tr).
  { destruct (first_rejected (accepts cfg dust tasks) (settles_of steps))
      as [Hall | (before & i & after & Hs & Hb & Hi)].
    - left.
      assert (Hall' : forall i, i < List.length tasks ->
                                accepts cfg dust tasks i = true)
        by (intros i Hi; apply Hall, (settles_complete tasks steps Hperm i Hi)).
      split; [exact Hall'|].
      destruct (Nat.eq_dec (List.length tasks) 0) as [E0 | Hpos].
      + apply length_zero_iff_nil in E0. unfold tr. rewrite E0.
        unfold deliver. cbn [List.length promise_all app].
        rewrite settle_all_no_tasks. cbn. repeat split. now left.
      + destruct (last_settle tasks steps Hperm) as (pre & i & post & Ho & Hlen);
          [lia|].
        destruct (settlements_only _
                    (job_lines_are_settlements cfg dust tasks pre))
          as (B1 & B2 & _).
        destruct (settlements_only _
                    (job_lines_are_settlements cfg dust tasks post))
          as (A1 & A2 & _).
        unfold tr.
        rewrite (deliver_all_accepted cfg dust tasks steps Hnd Hin
                   pre post i Ho Hall Hlen).
        rewrite filter_app, run_failed_app, B1, B2.
        cbn [filter is_main_end app]. rewrite A1.
        change (Log AllProcessed :: job_lines cfg dust tasks post)
          with ([Log AllProcessed] ++ job_lines cfg dust tasks post)%list.
        rewrite run_failed_app, A2.
        repeat split. apply in_or_app. right. now left.
    - right.
      destruct (settles_split steps before i after Hs)
        as (pre & post & Ho & Hpre & _).
      rewrite <- Hpre in Hb.
      destruct (settlements_only _
                  (job_lines_are_settlements cfg dust tasks pre))
        as (B1 & B2 & B3).
      destruct (settlements_only _
                  (job_lines_are_settlements cfg dust tasks post))
        as (A1 & A2 & A3).
      unfold tr.
      rewrite (deliver_first_rejected cfg dust tasks steps Hnd Hin
                 pre post i Ho Hb Hi).
      rewrite filter_app, run_failed_app, B1, B2.
      cbn [filter is_main_end app]. rewrite A1.
      change (Log AnErrorOccurred :: job_lines cfg dust tasks post)
        with ([Log AnErrorOccurred] ++ job_lines cfg dust tasks post)%list.
      rewrite run_failed_app, A2.
      repeat split.
      + exists i. split; [|exact Hi].
        apply Hin. rewrite Hs. apply in_or_app. right. now left.
      + intros H.
        apply in_app_or in H as [H | H]; [contradiction|].
        apply in_app_or in H as [[H | []] | H];
          [discriminate | contradiction]. }
  destruct Hcases as [(Hall & Hf & Hr & Hi) | ((i & Hi & Hrej) & Hf & Hr & Hn)].
  - split; [now left|]. rewrite Hr. split; split; auto.
  - split; [now right|]. rewrite Hr. split; split; try discriminate.
    + intros Hall. rewrite (Hall i Hi) in Hrej. discriminate.
    + contradiction.
Qed.

(** Three deliveries of which two are rejected. *)
Lemma delivery_prints_one_closing_line_witness :
  filter is_main_end
    (deliver sample_config (fun i _ _ => Nat.eqb i 1) (sample_issues 3)
       [Finishes 0; Finishes 1; Settles 0; Settles 1; Finishes 2; Settles 2])
  = [Log AnErrorOccurred].
Proof.
  destruct (delivery_prints_one_closing_line sample_config
              (fun i _ _ => Nat.eqb i 1) (sample_issues 3)
              [Finishes 0; Finishes 1; Settles 0; Settles 1; Finishes 2;
               Settles 2]
              (Permutation_refl _)) as ([H | H] & _).
  - vm_compute in H. discriminate.
  - exact H.
Defined.

(* ================================================================== *)
(** * Properties of the start-up check *)

Lemma filter_nil_iff {A : Type} (f : A -> bool) (l : list A) :
  filter f l = [] <-> forall x, In x l -> f x = false.
Proof.
  induction l as [|a l IH]; cbn.
  - split; [intros _ x [] | reflexivity].
  - destruct (f a) eqn:Fa.
    + split; [discriminate|]. intros H.
      rewrite (H a (or_introl eq_refl)) in Fa. discriminate.
    + rewrite IH. split.
      * intros H x [<- | Hx]; auto.
      * intros H x Hx. apply H. now right.
Qed.

Lemma env_missing_false (env : Env) (v : string) :
  env_missing env v = false <-> exists s, env v = Some s /\ s <> "".
Proof.
  unfold env_missing. destruct (env v) as [s|].
  - split.
    + intros H. exists s. split; [reflexivity|].
      now apply String.eqb_neq.
    + intros (s' & E & Hne). inversion E; subst. now apply String.eqb_neq.
  - split; [discriminate | intros (s & E & _); discriminate].
Qed.

(** X15. The script starts only when each of the seven required
    variables is set to a non-empty value: otherwise it throws before
    any request, with a message that lists the required variables that
    are unset or empty.  [JIRA_QUERY] is not among them: the check does
    not read it, and an unset or empty [JIRA_QUERY] gives the default
    query. *)
Theorem startup_requires_every_variable (env : Env) :
  (startup_check env = None <->
   forall v, In v requiredEnvVars -> exists s, env v = Some s /\ s <> "")
  /\ (forall msg,
        startup_check env = Some msg ->
        msg = "Please provide values for the following environment variables: "
                ++ join ", " (missingEnvVars env)
        /\ exists v, In v requiredEnvVars /\ In v (missingEnvVars env)
                     /\ (env v = None \/ env v = Some ""))
  /\ (forall env',
        (forall v, v <> "JIRA_QUERY" -> env' v = env v) ->
        startup_check env' = startup_check env)
  /\ (env "JIRA_QUERY" = None \/ env "JIRA_QUERY" = Some "" ->
      JIRA_QUERY env = DEFAULT_JIRA_QUERY).
Proof.
  split; [|split; [|split]].
  - unfold startup_check.
    destruct (missingEnvVars env) as [|m ms] eqn:E.
    + split; [intros _ | reflexivity].
      intros v Hv. apply env_missing_false.
      unfold missingEnvVars in E.
      exact (proj1 (filter_nil_iff _ _) E v Hv).
    + split; [discriminate|]. intros H. exfalso.
      assert (Hm : In m (missingEnvVars env)) by (rewrite E; now left).
      apply filter_In in Hm as [Hreq Hmiss].
      apply H, env_missing_false in Hreq. rewrite Hreq in Hmiss. discriminate.
  - intros msg H. unfold startup_check in H.
    destruct (missingEnvVars env) as [|m ms] eqn:E; [discriminate|].
    inversion H. split; [reflexivity|]. exists m.
    assert (Hm : In m (missingEnvVars env)) by (rewrite E; now left).
    pose proof Hm as Hm'. rewrite E in Hm'.
    apply filter_In in Hm as [Hreq Hmiss].
    repeat split; try assumption.
    unfold env_missing in Hmiss. destruct (env m) as [s|]; [|now left].
    right. apply String.eqb_eq in Hmiss. now subst.
  - intros env' Hsame.
    assert (Hm : missingEnvVars env' = missingEnvVars env).
    { unfold missingEnvVars. apply filter_ext_in. intros v Hv.
      unfold env_missing. rewrite Hsame; [reflexivity|].
      intros ->. revert Hv. clear. cbn. intuition discriminate. }
    unfold startup_check. now rewrite Hm.
  - unfold JIRA_QUERY. intros [-> | ->]; reflexivity.
Qed.

(** An environment with every variable set, and one where
    [DUST_API_KEY] is unset and [JIRA_EMAIL] is empty. *)
Lemma startup_requires_every_variable_witness :
  startup_check full_env = None
  /\ startup_check partial_env
     = Some ("Please provide values for the following environment variables: "
               ++ "JIRA_EMAIL, DUST_API_KEY")
  /\ JIRA_QUERY full_env = DEFAULT_JIRA_QUERY.
Proof.
  split; [|split].
  - destruct (startup_requires_every_variable full_env) as ([_ H] & _).
    apply H. intros v Hv. exists "x". split; [|discriminate].
    cbn in Hv. unfold full_env.
    repeat (destruct Hv as [<- | Hv]; [reflexivity|]). contradiction.
  - destruct (startup_requires_every_variable partial_env) as (_ & H & _).
    destruct (startup_check partial_env) as [msg|] eqn:E;
      [|vm_compute in E; discriminate].
    destruct (H msg eq_refl) as [-> _]. reflexivity.
  - destruct (startup_requires_every_variable full_env) as (_ & _ & _ & H).
    apply H. now left.
Defined.

(* ================================================================== *)
(** * What the fetcher's last lines say *)

Lemma trace_backoffs_extends (s : Z) (hdrs : list (option string)) :
  forall w, exists evs, trace (backoffs s hdrs w) = (trace w ++ evs)%list.
Proof.
  induction hdrs as [|h hdrs IH]; intros w; cbn [backoffs fold_left].
  - exists []. now rewrite app_nil_r.
  - fold (backoffs s hdrs (backed_off s h w)).
    destruct (IH (backed_off s h w)) as [evs ->].
    unfold backed_off, emit, posted. cbn [trace].
    eexists. rewrite <- !app_assoc. reflexivity.
Qed.

(** The loop ends either on the [catch] line or on a [Retrieved] line
    whose count is the size of the result and is not below the total. *)
Lemma fetch_loop_last_line (srv : Server) (fuel : nat) :
  forall (st : FetchState) (w : World) all w',
    fetch_loop fuel srv st w = Some (all, w') ->
    exists evs last,
      trace w' = (trace w ++ evs ++ [Log last])%list
      /\ ((exists e, last = ErrorFetching e)
          \/ exists tot,
               last = Retrieved (List.length all) tot
               /\ (tot <= Z.of_nat (List.length all))%Z).
Proof.
  induction fuel as [|fuel IH]; intros st w all w' Hrun; [discriminate|].
  destruct (makeRequest_runs srv (startAt st) 4 0 w ltac:(lia) ltac:(lia))
    as (hdrs & _ & _ & _ & Hreq).
  destruct (trace_backoffs_extends (startAt st) hdrs w) as [evs0 Hevs0].
  cbn [fetch_loop] in Hrun. rewrite Hreq in Hrun.
  destruct (srv (clock w + List.length hdrs) (page_request (startAt st)))
    as [d | e].
  - cbv zeta in Hrun.
    destruct (continues (next_state st d)) eqn:C.
    + destruct (IH _ _ _ _ Hrun) as (evs & last & Htr & Hlast).
      exists (evs0 ++ [Post (page_request (startAt st));
                       Log (Retrieved
                              (List.length (allIssues (next_state st d)))
                              (total_seen (next_state st d)))] ++ evs)%list,
             last.
      split; [|exact Hlast].
      rewrite Htr. unfold emit, posted. cbn [trace]. rewrite Hevs0.
      now rewrite <- !app_assoc.
    + injection Hrun as <- <-.
      exists (evs0 ++ [Post (page_request (startAt st))])%list. eexists.
      split.
      * unfold emit, posted. cbn [trace]. rewrite Hevs0.
        rewrite <- !app_assoc. reflexivity.
      * right. eexists. split; [reflexivity|].
        unfold continues in C. now apply Z.ltb_ge in C.
  - injection Hrun as <- <-.
    exists (evs0 ++ [Post (page_request (startAt st))])%list. eexists.
    split.
    + unfold emit, posted. cbn [trace]. rewrite Hevs0.
      rewrite <- !app_assoc. reflexivity.
    + left. now eexists.
Qed.

(** X16. The last two console lines of a fetch tell how it ended.
    Whenever the fetcher returns, its trace ends with the final total,
    which is the size of the returned array, preceded either by the
    error group of the [catch], or by a [Retrieved n of total] line with
    [n] the size of the array and [total <= n]: without an error the
    fetcher never returns fewer records than the total reported last. *)
Theorem fetch_ends_complete_or_with_an_error (fuel : nat) (srv : Server)
    (all : list JiraIssue) (w' : World) :
  getIssuesUpdatedLast24Hours fuel srv world0 = Some (all, w') ->
  exists evs last,
    trace w' = (evs ++ [Log last; Log (FinalTotal (List.length all))])%list
    /\ ((exists e, last = ErrorFetching e)
        \/ exists tot,
             last = Retrieved (List.length all) tot
             /\ (tot <= Z.of_nat (List.length all))%Z).
Proof.
  unfold getIssuesUpdatedLast24Hours. intros H.
  destruct (fetch_loop fuel srv fetch_init world0) as [[all0 w0]|] eqn:E;
    [|discriminate].
  injection H as <- <-.
  destruct (fetch_loop_last_line srv fuel _ _ _ _ E)
    as (evs & last & Htr & Hlast).
  exists evs, last. split; [|exact Hlast].
  unfold emit. cbn [trace]. rewrite Htr. cbn [world0 trace app].
  now rewrite <- app_assoc.
Qed.

(** A Jira that reports three records and returns one per page. *)
Lemma fetch_ends_complete_or_with_an_error_witness :
  exists all w' evs last,
    getIssuesUpdatedLast24Hours 4 one_record_server world0 = Some (all, w')
    /\ trace w'
       = (evs ++ [Log last; Log (FinalTotal (List.length all))])%list.
Proof.
  destruct (getIssuesUpdatedLast24Hours 4 one_record_server world0)
    as [[all w']|] eqn:E; [|vm_compute in E; discriminate].
  destruct (fetch_ends_complete_or_with_an_error _ _ _ _ E)
    as (evs & last & Htr & _).
  exists all, w', evs, last. split; [reflexivity | exact Htr].
Defined.
